(** * The session coordinator [ContextSession] of the koa session middleware

    A shallow embedding of the class [ContextSession] (the context module of
    the session middleware) and the properties of its commit protocol.

    The coordinator is a JavaScript object with mutable fields that calls
    into collaborators: the cookie jar of the koa context, an optional
    external store, the callbacks of the options object, the clock and the
    macrotask queue ([setImmediate]).  The embedding threads one [State]
    through every method: the fields of [this], the contents of the options
    object that [this.opts] points to, and what the collaborators have seen
    (a log of calls in program order, the [set-cookie] response header, the
    queue of pending immediates, what was emitted on the application bus).
    A method is a function [State -> Outcome A * State]; an exception keeps
    the state reached when it was raised. *)

From Stdlib Require Import ZArith String List Bool Lia DecimalString.
Import ListNotations.
Local Open Scope string_scope.
Local Open Scope Z_scope.
#[local] Set Warnings "-register-all".

(** ** JavaScript values

    Numbers are the integers and NaN: times and durations are integral
    milliseconds, on which the double arithmetic of JavaScript is exact
    below 2^53.  Arrays and function values are not part of the universe. *)

Inductive num : Type :=
| NaN
| Int (z : Z).

Inductive value : Type :=
| VUndefined
| VNull
| VBool (b : bool)
| VNum (n : num)
| VStr (s : string)
| VObj (fields : list (string * value)).

(** An object literal: its own enumerable properties in insertion order. *)
Definition obj : Type := list (string * value).

(** [ToBoolean]. *)
Definition truthy (v : value) : bool :=
  match v with
  | VUndefined | VNull => false
  | VBool b => b
  | VNum NaN => false
  | VNum (Int z) => negb (z =? 0)
  | VStr s => negb (s =? "")%string
  | VObj _ => true
  end.

Definition typeof (v : value) : string :=
  match v with
  | VUndefined => "undefined"
  | VNull => "object"
  | VBool _ => "boolean"
  | VNum _ => "number"
  | VStr _ => "string"
  | VObj _ => "object"
  end.

(** [a === b].  Two objects are equal only when they are the same
    reference, which the value universe does not track: every use below has
    a primitive on one side at least, where the answer is [false]. *)
Definition strict_eq (a b : value) : bool :=
  match a, b with
  | VUndefined, VUndefined => true
  | VNull, VNull => true
  | VBool x, VBool y => Bool.eqb x y
  | VNum (Int x), VNum (Int y) => x =? y
  | VStr x, VStr y => (x =? y)%string
  | _, _ => false
  end.

Fixpoint lookup (k : string) (o : obj) : value :=
  match o with
  | [] => VUndefined
  | (k', v) :: o' => if (k =? k')%string then v else lookup k o'
  end.

(** [v.k]: a property read; a primitive has no own properties. *)
Definition prop (v : value) (k : string) : value :=
  match v with
  | VObj o => lookup k o
  | _ => VUndefined
  end.

(** [o.k = v]: an existing key keeps its place, a new one goes last. *)
Fixpoint obj_set (k : string) (v : value) (o : obj) : obj :=
  match o with
  | [] => [(k, v)]
  | (k', v') :: o' =>
      if (k =? k')%string then (k, v) :: o' else (k', v') :: obj_set k v o'
  end.

(** [Object.keys(o)]. *)
Definition keys (o : obj) : list string := map fst o.

Definition own_fields (v : value) : obj :=
  match v with
  | VObj o => o
  | _ => []
  end.

(** [ToString]; an integer prints in decimal (as JavaScript does below
    10^21), a plain object as its default tag. *)
Definition ToString (v : value) : string :=
  match v with
  | VUndefined => "undefined"
  | VNull => "null"
  | VBool true => "true"
  | VBool false => "false"
  | VNum NaN => "NaN"
  | VNum (Int z) => NilZero.string_of_int (Z.to_int z)
  | VStr s => s
  | VObj _ => "[object Object]"
  end.

(** [ToNumber]; the conversion of a string to a number is the runtime's and
    is taken as a parameter. *)
Definition ToNumber (StringToNumber : string -> num) (v : value) : num :=
  match v with
  | VUndefined => NaN
  | VNull => Int 0
  | VBool true => Int 1
  | VBool false => Int 0
  | VNum n => n
  | VStr s => StringToNumber s
  | VObj _ => NaN
  end.

Definition num_add (a b : num) : num :=
  match a, b with
  | Int x, Int y => Int (x + y)
  | _, _ => NaN
  end.

Definition num_sub (a b : num) : num :=
  match a, b with
  | Int x, Int y => Int (x - y)
  | _, _ => NaN
  end.

Definition num_ltb (a b : num) : bool :=
  match a, b with
  | Int x, Int y => x <? y
  | _, _ => false
  end.

(** [a < m / 2] on numbers.  The quotient need not be an integer; over the
    reals [a < m / 2] is [2 * a < m], which is how it is decided here. *)
Definition num_lt_half (a m : num) : bool :=
  match a, m with
  | Int x, Int y => 2 * x <? y
  | _, _ => false
  end.

(** Does [ToPrimitive] of the value give a string? *)
Definition stringy (v : value) : bool :=
  match v with
  | VStr _ | VObj _ => true
  | _ => false
  end.

(** [a + b]: concatenation once an operand is a string, addition otherwise
    (no string reaches [ToNumber] here). *)
Definition js_add (a b : value) : value :=
  if stringy a || stringy b
  then VStr (ToString a ++ ToString b)
  else VNum (num_add (ToNumber (fun _ => NaN) a) (ToNumber (fun _ => NaN) b)).

(** [a < b]: two strings compare as strings, anything else as numbers. *)
Definition js_lt (StringToNumber : string -> num) (a b : value) : bool :=
  if stringy a && stringy b
  then String.ltb (ToString a) (ToString b)
  else num_ltb (ToNumber StringToNumber a) (ToNumber StringToNumber b).

(** ** Exceptions and settled promises *)

Inductive ErrorClass : Type :=
| SyntaxError
| TypeError
| PlainError.

(** An error object; [headers] is the property that the host's error
    handler copies onto the response: the lines of its [set-cookie]. *)
Record Error : Type := mkError {
  class : ErrorClass;
  message : string;
  headers : option (list string)
}.

Definition instanceof_SyntaxError (e : Error) : bool :=
  match class e with
  | SyntaxError => true
  | _ => false
  end.

(** What a call, or an awaited promise, comes back with. *)
Inductive Outcome (A : Type) : Type :=
| Returns (a : A)
| Throws (e : Error).

Arguments Returns {A} a.
Arguments Throws {A} e.

(** ** The collaborators *)

(** The external store: what each of its promises settles to. *)
Module Store.
Record t : Type := mk {
  get : value -> value -> value -> Outcome value;
  set : value -> obj -> value -> bool -> value -> Outcome unit;
  destroy : value -> Outcome unit
}.
End Store.

(** Modelled from the spec: the session value object of [./session], which
    is not among the sources (spec, sections 3 and 4.1).  It wraps the
    application's keys and the two reserved fields; [isNew] holds iff it was
    constructed without an initial payload; [toJSON] gives the application's
    keys followed by the reserved fields that are set; the [maxAge] accessor
    reads the reserved field; [_requireSave] is the transient flag with
    which the application forces a save. *)
Module Session.
Record t : Type := mk {
  isNew : bool;
  props : obj;
  _expire : value;
  _maxAge : value;
  _requireSave : value
}.

Definition reserved (k : string) : bool :=
  ((k =? "_expire") || (k =? "_maxAge"))%string.

Definition is_set (v : value) : bool :=
  match v with
  | VUndefined => false
  | _ => true
  end.

(** [new Session(ctx, val)] *)
Definition new (val : value) : t :=
  if truthy val
  then mk false
          (filter (fun kv => negb (reserved (fst kv))) (own_fields val))
          (prop val "_expire") (prop val "_maxAge") VUndefined
  else mk true [] VUndefined VUndefined VUndefined.

Definition toJSON (s : t) : obj :=
  (props s
   ++ (if is_set (_expire s) then [("_expire", _expire s)] else [])
   ++ (if is_set (_maxAge s) then [("_maxAge", _maxAge s)] else []))%list.

Definition maxAge (s : t) : value := _maxAge s.
End Session.

(** The options object.  [valid] and [beforeSave] are [None] when the
    property is not a function (the code tests [typeof] before the call) and
    take the request's context as bound; [beforeSave] gives the session as
    the hook leaves it; [genid] answers its n-th call.
    [cookie_flags] stands for the properties that only the cookie jar reads
    ([signed], [overwrite], [httpOnly], ...). *)
Module Opts.
Record t : Type := mk {
  key : value;
  maxAge : value;
  rolling : value;
  renew : value;
  cookie_flags : obj;
  valid : option (value -> value);
  beforeSave : option (Session.t -> Session.t);
  encode : obj -> value;
  decode : value -> Outcome value;
  genid : nat -> value;
  ContextStore : option Store.t;
  store : option Store.t
}.

(** [opts.maxAge = v] *)
Definition set_maxAge (v : value) (o : t) : t :=
  mk (key o) v (rolling o) (renew o) (cookie_flags o) (valid o)
     (beforeSave o) (encode o) (decode o) (genid o) (ContextStore o) (store o).

(** [{}] where the constructor is given no options: every property is
    undefined.  A call of an undefined property raises a [TypeError]. *)
Definition empty : t :=
  mk VUndefined VUndefined VUndefined VUndefined [] None None
     (fun _ => VUndefined)
     (fun _ => Throws (mkError TypeError "opts.decode is not a function" None))
     (fun _ => VUndefined) None None.
End Opts.

(** The koa context of the request: the cookie jar reads the request's
    cookies, and a cookie write shows as lines of the [set-cookie] response
    header (how a write is rendered is the jar's business). *)
Module Ctx.
Record t : Type := mk {
  cookies_get : value -> Opts.t -> value;
  cookies_set : value -> value -> Opts.t -> list string -> list string
}.
End Ctx.

(** What the runtime and [./util] provide, taken as parameters: the clock
    ([Date.now()] answers its n-th reading), the conversion of strings to
    numbers, and [util.hash], the content hash of a serialized session
    ([./util] is not among the sources). *)
Module Runtime.
Record t : Type := mk {
  Date_now : nat -> Z;
  StringToNumber : string -> num;
  hash : obj -> Z
}.
End Runtime.

(** The data of a validity notification, [{ key, value, ctx }]. *)
Record Notification : Type := mkNotification {
  n_key : value;
  n_value : value;
  n_ctx : Ctx.t
}.

(** A call on a collaborator, as it appears in the log. *)
Inductive Event : Type :=
| CookiesGet (name : value) (o : Opts.t)
| CookiesSet (name val : value) (o : Opts.t)
| StoreGet (k maxAge : value) (rolling : value)
| StoreSet (k : value) (json : obj) (maxAge : value) (changed : bool) (rolling : value)
| StoreDestroy (k : value)
| Genid
| Decode (cookie : value)
| Encode (json : obj)
| ValidCall (v : value)
| BeforeSave (s : Session.t).

(** The session slot [this.session]: [undefined] until touched, [false]
    once the application assigned [null], a session object otherwise. *)
Inductive Slot : Type :=
| Unset
| Cleared
| Loaded (s : Session.t).

Definition ONE_DAY : Z := 24 * 60 * 60 * 1000.

Module ContextSession.

Record State : Type := mkState {
  (* the runtime *)
  rt : Runtime.t;
  (* the fields of [this]; [opts] is the object that [this.opts] points to *)
  ctx : Ctx.t;
  opts : Opts.t;
  store : option Store.t;
  session : Slot;
  externalKey : value;
  prevHash : value;
  (* what the collaborators hold *)
  set_cookie : list string;
  immediates : list (string * Notification);
  emitted : list (string * Notification);
  ticks : nat;
  genids : nat;
  log : list Event
}.

Definition with_opts (o : Opts.t) (s : State) : State :=
  mkState (rt s) (ctx s) o (store s) (session s) (externalKey s) (prevHash s)
    (set_cookie s) (immediates s) (emitted s) (ticks s) (genids s) (log s).

Definition with_session (x : Slot) (s : State) : State :=
  mkState (rt s) (ctx s) (opts s) (store s) x (externalKey s) (prevHash s)
    (set_cookie s) (immediates s) (emitted s) (ticks s) (genids s) (log s).

Definition with_externalKey (k : value) (s : State) : State :=
  mkState (rt s) (ctx s) (opts s) (store s) (session s) k (prevHash s)
    (set_cookie s) (immediates s) (emitted s) (ticks s) (genids s) (log s).

Definition with_prevHash (h : value) (s : State) : State :=
  mkState (rt s) (ctx s) (opts s) (store s) (session s) (externalKey s) h
    (set_cookie s) (immediates s) (emitted s) (ticks s) (genids s) (log s).

Definition with_set_cookie (h : list string) (s : State) : State :=
  mkState (rt s) (ctx s) (opts s) (store s) (session s) (externalKey s) (prevHash s)
    h (immediates s) (emitted s) (ticks s) (genids s) (log s).

Definition with_immediates (q : list (string * Notification)) (s : State) : State :=
  mkState (rt s) (ctx s) (opts s) (store s) (session s) (externalKey s) (prevHash s)
    (set_cookie s) q (emitted s) (ticks s) (genids s) (log s).

Definition with_emitted (b : list (string * Notification)) (s : State) : State :=
  mkState (rt s) (ctx s) (opts s) (store s) (session s) (externalKey s) (prevHash s)
    (set_cookie s) (immediates s) b (ticks s) (genids s) (log s).

Definition with_ticks (n : nat) (s : State) : State :=
  mkState (rt s) (ctx s) (opts s) (store s) (session s) (externalKey s) (prevHash s)
    (set_cookie s) (immediates s) (emitted s) n (genids s) (log s).

Definition with_genids (n : nat) (s : State) : State :=
  mkState (rt s) (ctx s) (opts s) (store s) (session s) (externalKey s) (prevHash s)
    (set_cookie s) (immediates s) (emitted s) (ticks s) n (log s).

(** Appends a call to the log. *)
Definition record (e : Event) (s : State) : State :=
  mkState (rt s) (ctx s) (opts s) (store s) (session s) (externalKey s) (prevHash s)
    (set_cookie s) (immediates s) (emitted s) (ticks s) (genids s) (log s ++ [e])%list.

(** *** The monad of methods *)

Definition M (A : Type) : Type := State -> Outcome A * State.

Definition ret {A : Type} (a : A) : M A := fun s => (Returns a, s).

Definition bind {A B : Type} (m : M A) (k : A -> M B) : M B :=
  fun s =>
    match m s with
    | (Returns a, s') => k a s'
    | (Throws e, s') => (Throws e, s')
    end.

Definition throw {A : Type} (e : Error) : M A := fun s => (Throws e, s).

Definition gets {A : Type} (f : State -> A) : M A := fun s => (Returns (f s), s).

Definition modify (f : State -> State) : M unit := fun s => (Returns tt, f s).

(** A settled promise, awaited; or the outcome of a callback. *)
Definition settle {A : Type} (o : Outcome A) : M A := fun s => (o, s).

Declare Scope js_scope.
Delimit Scope js_scope with js.
Notation "x <- c ;; k" := (bind c (fun x => k))
  (at level 61, c at next level, right associativity) : js_scope.
Notation "c ;; k" := (bind c (fun _ => k))
  (at level 61, right associativity) : js_scope.
Local Open Scope js_scope.

(** *** Calls on the collaborators *)

(** [ctx.cookies.get(name, opts)] *)
Definition cookies_get (name : value) : M value :=
  o <- gets opts ;;
  modify (record (CookiesGet name o)) ;;
  c <- gets ctx ;;
  ret (Ctx.cookies_get c name o).

(** [ctx.cookies.set(name, val, opts)] *)
Definition cookies_set (name val : value) : M unit :=
  o <- gets opts ;;
  modify (record (CookiesSet name val o)) ;;
  c <- gets ctx ;;
  h <- gets set_cookie ;;
  modify (with_set_cookie (Ctx.cookies_set c name val o h)).

(** [Date.now()] *)
Definition Date_now : M Z :=
  r <- gets rt ;;
  n <- gets ticks ;;
  modify (with_ticks (S n)) ;;
  ret (Runtime.Date_now r n).

(** [this.opts.genid()] *)
Definition genid : M value :=
  o <- gets opts ;;
  n <- gets genids ;;
  modify (with_genids (S n)) ;;
  modify (record Genid) ;;
  ret (Opts.genid o n).

(** A method call on [this.store], which raises a [TypeError] when there is
    no store. *)
Definition the_store : M Store.t :=
  st <- gets store ;;
  match st with
  | Some x => ret x
  | None => throw (mkError TypeError "Cannot read properties of undefined" None)
  end.

(** [await this.store.get(k, maxAge, { rolling })] *)
Definition store_get (k maxAge rolling : value) : M value :=
  st <- the_store ;;
  modify (record (StoreGet k maxAge rolling)) ;;
  settle (Store.get st k maxAge rolling).

(** [await this.store.set(k, json, maxAge, { changed, rolling })] *)
Definition store_set (k : value) (json : obj) (maxAge : value)
    (changed : bool) (rolling : value) : M unit :=
  st <- the_store ;;
  modify (record (StoreSet k json maxAge changed rolling)) ;;
  settle (Store.set st k json maxAge changed rolling).

(** [await this.store.destroy(k)] *)
Definition store_destroy (k : value) : M unit :=
  st <- the_store ;;
  modify (record (StoreDestroy k)) ;;
  settle (Store.destroy st k).

(** A property or method of [this.session], which raises a [TypeError]
    while the slot holds no session object. *)
Definition the_session : M Session.t :=
  sl <- gets session ;;
  match sl with
  | Loaded x => ret x
  | _ => throw (mkError TypeError "this.session.toJSON is not a function" None)
  end.

(** *** The methods of the class, in the order of the source *)

(** [constructor(ctx, opts)]: [this.opts] is the object that was passed, not
    a copy of it; [{}] when none was. *)
Definition constructor (r : Runtime.t) (c : Ctx.t) (o : option Opts.t) : State :=
  let o' := match o with Some x => x | None => Opts.empty end in
  mkState r c o'
    (match Opts.ContextStore o' with
     | Some st => Some st
     | None => Opts.store o'
     end)
    Unset VUndefined VUndefined [] [] [] 0%nat 0%nat [].

(** [emit(event, data)]: the callback is queued with [setImmediate]. *)
Definition emit (event : string) (data : Notification) : M unit :=
  q <- gets immediates ;;
  modify (with_immediates (q ++ [(event, data)])%list).

(** One turn of the event loop's check phase: the oldest queued callback
    runs and emits on the application. *)
Definition run_immediate (s : State) : State :=
  match immediates s with
  | [] => s
  | (event, data) :: q =>
      with_emitted (emitted s ++ [(("session:" ++ event)%string, data)])%list
        (with_immediates q s)
  end.

(** [create(val, externalKey)] *)
Definition create (val externalKey' : value) : M unit :=
  st <- gets store ;;
  match st with
  | Some _ =>
      if truthy externalKey'
      then modify (with_externalKey externalKey')
      else k <- genid ;; modify (with_externalKey k)
  | None => ret tt
  end ;;
  modify (with_session (Loaded (Session.new val))).

(** [valid(value, key)] *)
Definition valid (value' key : value) : M bool :=
  c <- gets ctx ;;
  if negb (truthy value')
  then emit "missed" (mkNotification key value' c) ;; ret false
  else
    expired <-
      (if truthy (prop value' "_expire")
       then
         now <- Date_now ;;
         r <- gets rt ;;
         ret (js_lt (Runtime.StringToNumber r) (prop value' "_expire") (VNum (Int now)))
       else ret false) ;;
    if expired : bool
    then emit "expired" (mkNotification key value' c) ;; ret false
    else
      o <- gets opts ;;
      match Opts.valid o with
      | Some f =>
          modify (record (ValidCall value')) ;;
          if negb (truthy (f value'))
          then emit "invalid" (mkNotification key value' c) ;; ret false
          else ret true
      | None => ret true
      end.

(** [set(val)] *)
Definition set (val : value) : M unit :=
  if strict_eq val VNull
  then modify (with_session Cleared)
  else if (typeof val =? "object")%string
  then
    k <- gets externalKey ;;
    create val k
  else throw (mkError PlainError "this.session can only be set as null or an object." None).

(** [initFromExternal()] *)
Definition initFromExternal : M unit :=
  o <- gets opts ;;
  externalKey' <- cookies_get (Opts.key o) ;;
  if negb (truthy externalKey')
  then create VUndefined VUndefined
  else
    json <- store_get externalKey' (Opts.maxAge o) (Opts.rolling o) ;;
    ok <- valid json externalKey' ;;
    if negb ok
    then create VUndefined VUndefined
    else
      create json externalKey' ;;
      sess <- the_session ;;
      r <- gets rt ;;
      modify (with_prevHash (VNum (Int (Runtime.hash r (Session.toJSON sess))))).

(** [initFromCookie()] *)
Definition initFromCookie : M unit :=
  o <- gets opts ;;
  cookie <- cookies_get (Opts.key o) ;;
  if negb (truthy cookie)
  then create VUndefined VUndefined
  else
    modify (record (Decode cookie)) ;;
    match Opts.decode o cookie with
    | Throws err =>
        if negb (instanceof_SyntaxError err)
        then
          cookies_set (Opts.key o) (VStr "") ;;
          h <- gets set_cookie ;;
          throw (mkError (class err) (message err) (Some h))
        else create VUndefined VUndefined
    | Returns json =>
        ok <- valid json VUndefined ;;
        if negb ok
        then create VUndefined VUndefined
        else
          create json VUndefined ;;
          sess <- the_session ;;
          r <- gets rt ;;
          modify (with_prevHash (VNum (Int (Runtime.hash r (Session.toJSON sess)))))
    end.

(** What [get()] returns: the session object, [null] or [undefined]. *)
Inductive Got : Type :=
| GotSession (s : Session.t)
| GotNull
| GotUndefined.

Definition got (sl : Slot) : Got :=
  match sl with
  | Loaded x => GotSession x
  | Cleared => GotNull
  | Unset => GotUndefined
  end.

(** [get()]; where its last line is reached the slot was unset, and holds a
    session object or is unset still. *)
Definition get : M Got :=
  sl <- gets session ;;
  match sl with
  | Loaded x => ret (GotSession x)
  | Cleared => ret GotNull
  | Unset =>
      st <- gets store ;;
      match st with
      | None => initFromCookie
      | Some _ => ret tt
      end ;;
      sl' <- gets session ;;
      ret (got sl')
  end.

(** [_shouldSaveSession()]: the reason to save, or the empty string. *)
Definition _shouldSaveSession : M string :=
  prevHash' <- gets prevHash ;;
  session' <- the_session ;;
  if truthy (Session._requireSave session') then ret "force"
  else
    let json := Session.toJSON session' in
    if negb (truthy prevHash') && (length (keys json) =? 0)%nat then ret ""
    else
      r <- gets rt ;;
      let changed := negb (strict_eq prevHash' (VNum (Int (Runtime.hash r json)))) in
      if changed then ret "changed"
      else
        o <- gets opts ;;
        if truthy (Opts.rolling o) then ret "rolling"
        else if truthy (Opts.renew o)
        then
          let expire := Session._expire session' in
          let maxAge := Session.maxAge session' in
          if truthy expire && truthy maxAge
          then
            now <- Date_now ;;
            let n := ToNumber (Runtime.StringToNumber r) in
            if num_lt_half (num_sub (n expire) (Int now)) (n maxAge)
            then ret "renew"
            else ret ""
          else ret ""
        else ret "".

(** [remove()] *)
Definition remove : M unit :=
  o <- gets opts ;;
  let key := Opts.key o in
  externalKey' <- gets externalKey ;;
  (if truthy externalKey' then store_destroy externalKey' else ret tt) ;;
  cookies_set key (VStr "").

(** [save(changed)] *)
Definition save (changed : bool) : M unit :=
  o <- gets opts ;;
  let key := Opts.key o in
  externalKey' <- gets externalKey ;;
  session' <- the_session ;;
  let json := Session.toJSON session' in
  let maxAge := if truthy (Opts.maxAge o) then Opts.maxAge o else VNum (Int ONE_DAY) in
  json <-
    (if strict_eq maxAge (VStr "session")
     then modify (with_opts (Opts.set_maxAge VUndefined o)) ;; ret json
     else
       now <- Date_now ;;
       ret (obj_set "_maxAge" maxAge
              (obj_set "_expire" (js_add maxAge (VNum (Int now))) json))) ;;
  if truthy externalKey'
  then
    let maxAge :=
      if (typeof maxAge =? "number")%string
      then js_add maxAge (VNum (Int 10000))
      else maxAge in
    o' <- gets opts ;;
    store_set externalKey' json maxAge changed (Opts.rolling o') ;;
    cookies_set key externalKey'
  else
    o' <- gets opts ;;
    modify (record (Encode json)) ;;
    cookies_set key (Opts.encode o' json).

(** [commit()] *)
Definition commit : M unit :=
  sl <- gets session ;;
  match sl with
  | Unset => ret tt
  | Cleared => remove
  | Loaded session' =>
      reason <- _shouldSaveSession ;;
      if negb (truthy (VStr reason)) then ret tt
      else
        o <- gets opts ;;
        match Opts.beforeSave o with
        | Some hook =>
            modify (record (BeforeSave session')) ;;
            modify (with_session (Loaded (hook session')))
        | None => ret tt
        end ;;
        save (reason =? "changed")%string
  end.

End ContextSession.

Import ContextSession.
Local Open Scope js_scope.

(** ** Observations on a run *)

(** A write on the persistence side: a store record or a cookie. *)
Definition is_write (e : Event) : bool :=
  match e with
  | StoreSet _ _ _ _ _ | CookiesSet _ _ _ => true
  | _ => false
  end.

Definition is_destroy (e : Event) : bool :=
  match e with
  | StoreDestroy _ => true
  | _ => false
  end.

Definition is_genid (e : Event) : bool :=
  match e with
  | Genid => true
  | _ => false
  end.

(** How often [genid] was called in a stretch of the log. *)
Definition genid_calls (l : list Event) : nat := length (filter is_genid l).

(** The calls that a run from [s] to [s'] added to the log. *)
Definition calls (s s' : State) : list Event := skipn (length (log s)) (log s').

(** The event loop runs every queued immediate, oldest first. *)
Definition drain (s : State) : State :=
  with_emitted
    (emitted s ++ map (fun ed => (("session:" ++ fst ed)%string, snd ed)) (immediates s))%list
    (with_immediates [] s).

(** ** The commit decision as the specification words it

    The ordered table of the commit protocol over the facts it names, first
    match wins. *)

Inductive Action : Type :=
| NoAction
| Removal
| SaveFor (reason : string).

Definition decision_table
    (unset cleared force new_and_empty hash_differs rolling renew_due : bool) : Action :=
  if unset then NoAction
  else if cleared then Removal
  else if force then SaveFor "force"
  else if new_and_empty then NoAction
  else if hash_differs then SaveFor "changed"
  else if rolling then SaveFor "rolling"
  else if renew_due then SaveFor "renew"
  else NoAction.

(** The renew condition: renewal configured, the session has an expiry and
    a max-age, and what remains until the expiry, at the clock's next
    reading, is less than half the max-age. *)
Definition renew_due (s : State) (x : Session.t) : bool :=
  truthy (Opts.renew (opts s))
  && truthy (Session._expire x) && truthy (Session.maxAge x)
  && num_lt_half
       (num_sub (ToNumber (Runtime.StringToNumber (rt s)) (Session._expire x))
                (Int (Runtime.Date_now (rt s) (ticks s))))
       (ToNumber (Runtime.StringToNumber (rt s)) (Session.maxAge x)).

(** The facts of the table, read off a state at commit time.  A session
    counts as new, without a baseline, while [prevHash] is falsy: that is how
    the code asks ([!prevHash]). *)
Definition decision (s : State) : Action :=
  match session s with
  | Unset => decision_table true false false false false false false
  | Cleared => decision_table false true false false false false false
  | Loaded x =>
      decision_table false false
        (truthy (Session._requireSave x))
        (negb (truthy (prevHash s)) && (length (keys (Session.toJSON x)) =? 0)%nat)
        (negb (strict_eq (prevHash s)
                 (VNum (Int (Runtime.hash (rt s) (Session.toJSON x))))))
        (truthy (Opts.rolling (opts s)))
        (renew_due s x)
  end.

(** The optional pre-save hook of [commit]. *)
Definition before_save : M unit :=
  sl <- gets session ;;
  o <- gets opts ;;
  match sl, Opts.beforeSave o with
  | Loaded x, Some hook =>
      modify (record (BeforeSave x)) ;;
      modify (with_session (Loaded (hook x)))
  | _, _ => ret tt
  end.

(** What each action of the table stands for. *)
Definition perform (a : Action) : M unit :=
  match a with
  | NoAction => ret tt
  | Removal => remove
  | SaveFor reason => before_save ;; save (reason =? "changed")%string
  end.

(** The reason that [_shouldSaveSession] reports for an action; the empty
    string stands for no save. *)
Definition reason_of (a : Action) : string :=
  match a with
  | SaveFor reason => reason
  | _ => ""
  end.

(** How [valid] classifies a payload in a state: the notification it
    schedules, if any. *)
Definition rejection (s : State) (v : value) : option string :=
  if negb (truthy v) then Some "missed"
  else if truthy (prop v "_expire")
          && js_lt (Runtime.StringToNumber (rt s)) (prop v "_expire")
               (VNum (Int (Runtime.Date_now (rt s) (ticks s))))
  then Some "expired"
  else
    match Opts.valid (opts s) with
    | Some f => if negb (truthy (f v)) then Some "invalid" else None
    | None => None
    end.

(** The effective max-age of [save] and the payload it hands on. *)
Definition effective_maxAge (o : Opts.t) : value :=
  if truthy (Opts.maxAge o) then Opts.maxAge o else VNum (Int 86400000).

Definition stamped (maxAge : value) (now : Z) (json : obj) : obj :=
  obj_set "_maxAge" maxAge (obj_set "_expire" (js_add maxAge (VNum (Int now))) json).

(** The payload that a call receives for persistence: the record handed to
    the store, or the mapping handed to the cookie codec. *)
Definition payload_of (e : Event) : option obj :=
  match e with
  | StoreSet _ json _ _ _ => Some json
  | Encode json => Some json
  | _ => None
  end.

(** ** Concrete collaborators for the examples *)

Module Sample.

Definition runtime : Runtime.t :=
  Runtime.mk (fun n => 1700000000000 + Z.of_nat n) (fun _ => NaN)
    (fun o => 1 + Z.of_nat (length o)).

(** A request without cookies. *)
Definition bare_ctx : Ctx.t :=
  Ctx.mk (fun _ _ => VUndefined)
    (fun name val _ h => (h ++ [(ToString name ++ "=" ++ ToString val)%string])%list).

(** A request that carries the cookie [k1]. *)
Definition keyed_ctx : Ctx.t :=
  Ctx.mk (fun _ _ => VStr "k1")
    (fun name val _ h => (h ++ [(ToString name ++ "=" ++ ToString val)%string])%list).

Definition record_of_ann : value :=
  VObj [("user", VStr "ann"); ("_expire", VNum (Int 1700000030000));
        ("_maxAge", VNum (Int 100000))].

Definition memory_store : Store.t :=
  Store.mk (fun _ _ _ => Returns record_of_ann)
    (fun _ _ _ _ _ => Returns tt) (fun _ => Returns tt).

Definition bad_signature : Error := mkError PlainError "invalid signature" None.
Definition bad_json : Error := mkError SyntaxError "Unexpected token" None.

Definition options (maxAge : value) (renew : value) (decode : value -> Outcome value)
    (st : option Store.t) : Opts.t :=
  Opts.mk (VStr "koa:sess") maxAge VUndefined renew [("signed", VBool true)]
    None None (fun _ => VStr "eyJ9") decode
    (fun n => VStr ("id" ++ NilZero.string_of_int (Z.to_int (Z.of_nat n)))) None st.

Definition decode_ok : value -> Outcome value := fun _ => Returns record_of_ann.

(** A first request in store mode: no cookie yet. *)
Definition first_request : State :=
  constructor runtime bare_ctx
    (Some (options (VNum (Int 60000)) VUndefined decode_ok (Some memory_store))).

(** A request in store mode that carries its key. *)
Definition keyed_request (maxAge renew : value) : State :=
  constructor runtime keyed_ctx (Some (options maxAge renew decode_ok (Some memory_store))).

(** A request in cookie mode whose cookie is decoded by [decode]. *)
Definition cookie_request (maxAge : value) (decode : value -> Outcome value) : State :=
  constructor runtime keyed_ctx (Some (options maxAge VUndefined decode None)).

(** A hydrated session in which the application has put one more key. *)
Definition ann_with_cart : Session.t :=
  Session.mk false [("user", VStr "ann"); ("cart", VNum (Int 3))]
    (VNum (Int 1700000030000)) (VNum (Int 100000)) VUndefined.

(** A payload that expired long ago. *)
Definition stale_record : value :=
  VObj [("user", VStr "ann"); ("_expire", VNum (Int 5))].

(** A store whose record of the session has expired. *)
Definition stale_store : Store.t :=
  Store.mk (fun _ _ _ => Returns stale_record)
    (fun _ _ _ _ _ => Returns tt) (fun _ => Returns tt).

Definition store_down : Error := mkError PlainError "connection refused" None.

(** A store that cannot be reached: each of its promises rejects. *)
Definition unreachable_store : Store.t :=
  Store.mk (fun _ _ _ => Throws store_down)
    (fun _ _ _ _ _ => Throws store_down) (fun _ => Throws store_down).

(** A request that carries the key [k1], for a given store. *)
Definition keyed_request_on (st : Store.t) : State :=
  constructor runtime keyed_ctx
    (Some (options (VNum (Int 100000)) VUndefined decode_ok (Some st))).

(** A request in cookie mode without a cookie. *)
Definition bare_cookie_request : State :=
  constructor runtime bare_ctx
    (Some (options (VNum (Int 100000)) VUndefined decode_ok None)).

(** Options of cookie mode with rolling sessions. *)
Definition rolling_options : Opts.t :=
  Opts.mk (VStr "koa:sess") (VNum (Int 100000)) (VBool true) VUndefined
    [("signed", VBool true)] None None (fun _ => VStr "eyJ9") decode_ok
    (fun _ => VStr "id") None None.

(** A request in cookie mode with rolling sessions whose cookie has been
    loaded and left as it was. *)
Definition rolling_request : State :=
  snd (initFromCookie (constructor runtime keyed_ctx (Some rolling_options))).

(** Options of cookie mode with rolling sessions and a hook that marks the
    session before it is saved. *)
Definition mark (x : Session.t) : Session.t :=
  Session.mk (Session.isNew x) (Session.props x ++ [("mark", VStr "v2")])%list
    (Session._expire x) (Session._maxAge x) (Session._requireSave x).

Definition hooked_options : Opts.t :=
  Opts.mk (VStr "koa:sess") (VNum (Int 100000)) (VBool true) VUndefined
    [("signed", VBool true)] None (Some mark) (fun _ => VStr "eyJ9") decode_ok
    (fun _ => VStr "id") None None.

Definition hooked_request : State :=
  snd (initFromCookie (constructor runtime keyed_ctx (Some hooked_options))).

(** A store that answers reads and rejects every write. *)
Definition readonly_store : Store.t :=
  Store.mk (fun _ _ _ => Returns record_of_ann)
    (fun _ _ _ _ _ => Throws store_down) (fun _ => Throws store_down).

(** A session loaded from the read-only store and then changed. *)
Definition changed_on_readonly : State :=
  with_session (Loaded ann_with_cart)
    (snd (initFromExternal (keyed_request_on readonly_store))).

End Sample.

(** ** Histories of a coordinator *)

(** The method [m] leaves the observation [f] of the state as it was,
    whether it returns or throws. *)
Definition preserves {A T : Type} (f : State -> T) (m : M A) : Prop :=
  forall s : State, f (snd (m s)) = f s.

(** The store of a coordinator, and its external key while it has none. *)
Definition store_and_lone_key (s : State) : option Store.t * option value :=
  (store s,
   match store s with
   | Some _ => None
   | None => Some (externalKey s)
   end).

(** The external key, the baseline of the dirty check and the store of a
    coordinator. *)
Definition key_baseline_store (s : State) : value * value * option Store.t :=
  (externalKey s, prevHash s, store s).


(** The application changes the session object in place. *)
Definition mutate (f : Session.t -> Session.t) (s : State) : State :=
  match session s with
  | Loaded x => with_session (Loaded (f x)) s
  | _ => s
  end.

(** What the middleware and the application can do with a coordinator: call
    one of its methods, change the session object, let the event loop run
    an immediate. *)
Inductive Call : Type :=
| CallGet
| CallSet (val : value)
| CallInitFromExternal
| CallInitFromCookie
| CallValid (val key : value)
| CallEmit (event : string) (data : Notification)
| CallCreate (val key : value)
| CallCommit
| CallShouldSaveSession
| CallRemove
| CallSave (changed : bool)
| Mutate (f : Session.t -> Session.t)
| Immediate.

(** The state after a call, returned from or thrown out of. *)
Definition call (c : Call) (s : State) : State :=
  match c with
  | CallGet => snd (get s)
  | CallSet val => snd (set val s)
  | CallInitFromExternal => snd (initFromExternal s)
  | CallInitFromCookie => snd (initFromCookie s)
  | CallValid val key => snd (valid val key s)
  | CallEmit event data => snd (emit event data s)
  | CallCreate val key => snd (create val key s)
  | CallCommit => snd (commit s)
  | CallShouldSaveSession => snd (_shouldSaveSession s)
  | CallRemove => snd (remove s)
  | CallSave changed => snd (save changed s)
  | Mutate f => mutate f s
  | Immediate => run_immediate s
  end.

Definition history (cs : list Call) (s : State) : State :=
  fold_left (fun t c => call c t) cs s.

(** ** Proof automation *)

(** Unfolds the monad and the calls on the collaborators. *)
Ltac step :=
  repeat progress
    (unfold bind, ret, gets, modify, throw, settle,
       cookies_get, cookies_set, Date_now, genid, the_store, store_get,
       store_set, store_destroy, the_session, emit in *;
     cbn [fst snd rt ctx opts store session externalKey prevHash set_cookie
          immediates emitted ticks genids log negb andb orb truthy
          with_opts with_session with_externalKey with_prevHash with_set_cookie
          with_immediates with_emitted with_ticks with_genids record] in *).

(** ** Reading the log *)

Lemma skipn_length_app {A : Type} (l d : list A) : skipn (length l) (l ++ d) = d.
Proof. induction l as [| a l IH]; simpl; auto. Qed.

Lemma calls_app (s s' : State) (d : list Event) :
  log s' = (log s ++ d)%list -> calls s s' = d.
Proof. unfold calls; intros ->; apply skipn_length_app. Qed.

Lemma calls_same (s s' : State) : log s' = log s -> calls s s' = [].
Proof.
  intros H; apply calls_app; rewrite H; symmetry; apply app_nil_r.
Qed.

(** A session made from no payload is new, empty and asks for nothing. *)
Lemma new_of_empty (P : value) :
  own_fields P = [] ->
  Session.toJSON (Session.new P) = []
  /\ Session._requireSave (Session.new P) = VUndefined.
Proof.
  intros HP; unfold Session.new, Session.toJSON.
  destruct P; simpl in *; try (destruct b); try (destruct n as [| z]; [| destruct (z =? 0)]);
    try (destruct (s =? "")%string); subst; simpl; auto.
Qed.

(** ** Properties of the coordinator *)

(** C1, as amended: with an external store configured and no external-key
    cookie on the request, [initFromExternal] creates a brand-new session and
    generates the fresh external key at once: [genid] is called exactly once
    during [initFromExternal] (by [create]) and its answer becomes the
    external key; the commit of the session, still empty and unmutated,
    changes nothing (no store or cookie write, no further [genid] call). *)
Theorem initFromExternal_generates_key_eagerly (s : State) (st : Store.t) :
  store s = Some st ->
  truthy (Ctx.cookies_get (ctx s) (Opts.key (opts s)) (opts s)) = false ->
  truthy (prevHash s) = false ->
  let s1 := snd (initFromExternal s) in
  fst (initFromExternal s) = Returns tt
  /\ calls s s1 = [CookiesGet (Opts.key (opts s)) (opts s); Genid]
  /\ genid_calls (calls s s1) = 1%nat
  /\ externalKey s1 = Opts.genid (opts s) (genids s)
  /\ session s1 = Loaded (Session.new VUndefined)
  /\ commit s1 = (Returns tt, s1).
Proof.
  intros Hst Hck Hph.
  assert (E : initFromExternal s =
              (Returns tt,
               with_session (Loaded (Session.new VUndefined))
                 (with_externalKey (Opts.genid (opts s) (genids s))
                    (record Genid
                       (with_genids (S (genids s))
                          (record (CookiesGet (Opts.key (opts s)) (opts s)) s)))))).
  { unfold initFromExternal, create; step. rewrite Hck; cbn [negb]. step.
    rewrite Hst. reflexivity. }
  rewrite E; cbn [fst snd].
  assert (C : calls s
                (with_session (Loaded (Session.new VUndefined))
                   (with_externalKey (Opts.genid (opts s) (genids s))
                      (record Genid
                         (with_genids (S (genids s))
                            (record (CookiesGet (Opts.key (opts s)) (opts s)) s)))))
              = [CookiesGet (Opts.key (opts s)) (opts s); Genid]).
  { apply calls_app; step. rewrite <- app_assoc. reflexivity. }
  repeat split; auto.
  - rewrite C; reflexivity.
  - unfold commit, _shouldSaveSession; step. rewrite Hph. reflexivity.
Qed.

Lemma initFromExternal_generates_key_eagerly_witness :
  fst (initFromExternal Sample.first_request) = Returns tt
  /\ genid_calls (calls Sample.first_request (snd (initFromExternal Sample.first_request))) = 1%nat
  /\ externalKey (snd (initFromExternal Sample.first_request)) = VStr "id0".
Proof.
  destruct (initFromExternal_generates_key_eagerly Sample.first_request
              Sample.memory_store eq_refl eq_refl eq_refl)
    as (H1 & _ & H3 & H4 & _).
  split; [exact H1 | split; [exact H3 | exact H4]].
Defined.

(** C1 as the specification states it fails: on a first request in store
    mode whose session stays empty and unmutated, so that the commit adds no
    call, [genid] has been called during [initFromExternal]. *)
Lemma genid_is_not_deferred_to_commit :
  ~ (forall s : State,
        store s <> None ->
        truthy (Ctx.cookies_get (ctx s) (Opts.key (opts s)) (opts s)) = false ->
        calls (snd (initFromExternal s)) (snd (commit (snd (initFromExternal s)))) = [] ->
        genid_calls (calls s (snd (initFromExternal s))) = 0%nat).
Proof.
  intros H.
  assert (K : genid_calls
                (calls Sample.first_request (snd (initFromExternal Sample.first_request)))
              = 0%nat).
  { apply H; [discriminate | reflexivity | reflexivity]. }
  vm_compute in K. discriminate K.
Qed.

(** [_shouldSaveSession] reports the reason of the table's row; the clock
    is read at most once, and exactly once on the way to [renew]. *)
Lemma shouldSave_by_table (s : State) (x : Session.t) :
  session s = Loaded x ->
  exists s',
    _shouldSaveSession s = (Returns (reason_of (decision s)), s')
    /\ (s' = s \/ s' = with_ticks (S (ticks s)) s)
    /\ (decision s = SaveFor "renew" -> s' = with_ticks (S (ticks s)) s)
    /\ (decision s = SaveFor "force" \/ decision s = SaveFor "changed"
        \/ decision s = SaveFor "rolling" -> s' = s)
    /\ (decision s = NoAction \/ decision s = SaveFor "force"
        \/ decision s = SaveFor "changed" \/ decision s = SaveFor "rolling"
        \/ decision s = SaveFor "renew").
Proof.
  intros Hs.
  unfold decision, decision_table, renew_due, _shouldSaveSession.
  step. rewrite Hs.
  destruct (truthy (Session._requireSave x)).
  { exists s; cbn; intuition (try discriminate; eauto). }
  destruct (negb (truthy (prevHash s))
            && (length (keys (Session.toJSON x)) =? 0)%nat).
  { exists s; cbn; intuition (try discriminate; eauto). }
  step.
  destruct (negb (strict_eq (prevHash s)
                    (VNum (Int (Runtime.hash (rt s) (Session.toJSON x)))))).
  { exists s; cbn; intuition (try discriminate; eauto). }
  step.
  destruct (truthy (Opts.rolling (opts s))).
  { exists s; cbn; intuition (try discriminate; eauto). }
  destruct (truthy (Opts.renew (opts s))); cbn [andb].
  2: { exists s; cbn; intuition (try discriminate; eauto). }
  destruct (truthy (Session._expire x)); cbn [andb].
  2: { exists s; cbn; intuition (try discriminate; eauto). }
  destruct (truthy (Session.maxAge x)); cbn [andb].
  2: { exists s; cbn; intuition (try discriminate; eauto). }
  step.
  destruct (num_lt_half _ _);
    exists (with_ticks (S (ticks s)) s); cbn; intuition (try discriminate; eauto).
Qed.

(** The decision of [commit] on any state, row by row. *)
Lemma commit_by_table (s : State) :
  match decision s with
  | NoAction =>
      fst (commit s) = Returns tt
      /\ log (snd (commit s)) = log s
      /\ set_cookie (snd (commit s)) = set_cookie s
  | Removal => commit s = remove s
  | SaveFor reason =>
      commit s =
      perform (SaveFor reason)
        (if (reason =? "renew")%string then with_ticks (S (ticks s)) s else s)
  end.
Proof.
  destruct (session s) as [| | x] eqn:Hs.
  - unfold decision, commit; step; rewrite Hs; cbn; auto.
  - unfold decision, commit; step; rewrite Hs; cbn; auto.
  - destruct (shouldSave_by_table s x Hs) as (s' & E & Hor & Hrenew & Hrest & Hshape).
    unfold commit, perform, before_save; step; rewrite Hs, E.
    destruct Hshape as [HN | [HS | [HS | [HS | HS]]]].
    + rewrite HN; cbn. destruct Hor as [-> | ->]; auto.
    + rewrite HS in *; rewrite Hrest by auto; cbn; step; rewrite Hs.
      destruct (Opts.beforeSave (opts s)); reflexivity.
    + rewrite HS in *; rewrite Hrest by auto; cbn; step; rewrite Hs.
      destruct (Opts.beforeSave (opts s)); reflexivity.
    + rewrite HS in *; rewrite Hrest by auto; cbn; step; rewrite Hs.
      destruct (Opts.beforeSave (opts s)); reflexivity.
    + rewrite HS in *; rewrite Hrenew by auto; cbn; step; rewrite Hs.
      destruct (Opts.beforeSave (opts s)); reflexivity.
Qed.

(** What [create] leaves behind: a session made from the payload; nothing
    else of the coordinator changes but the external key, and only [genid]
    is called, if anything. *)
Lemma create_frame (val k : value) (s : State) :
  fst (create val k s) = Returns tt
  /\ session (snd (create val k s)) = Loaded (Session.new val)
  /\ prevHash (snd (create val k s)) = prevHash s
  /\ opts (snd (create val k s)) = opts s
  /\ rt (snd (create val k s)) = rt s
  /\ ticks (snd (create val k s)) = ticks s
  /\ store (snd (create val k s)) = store s
  /\ set_cookie (snd (create val k s)) = set_cookie s.
Proof.
  unfold create; step.
  destruct (store s) eqn:Hst; [destruct (truthy k) |]; step; cbn; auto 10.
Qed.

Lemma create_externalKey (val k : value) (s : State) :
  externalKey (snd (create val k s)) =
  match store s with
  | Some _ => if truthy k then k else Opts.genid (opts s) (genids s)
  | None => externalKey s
  end
  /\ log (snd (create val k s)) =
     (log s ++ match store s with
               | Some _ => if truthy k then [] else [Genid]
               | None => []
               end)%list.
Proof.
  unfold create; step.
  destruct (store s) eqn:Hst; [destruct (truthy k) |]; step; cbn;
    rewrite ?app_nil_r; auto.
Qed.

(** C2: [commit] chooses its action by the ordered table, first match wins.
    On every state the run of [commit] is the action of the row that
    [decision] selects: nothing for an unset slot, [remove] for a cleared
    one, the hook and [save] for the reasons [force], [changed], [rolling] and
    [renew], and nothing where no row or the new-and-empty row applies;
    [_shouldSaveSession] reports that reason.  In particular a session
    created from a payload without keys on a coordinator without a baseline
    and committed as it is performs no store and no cookie write. *)
Theorem commit_follows_decision_table (s : State) :
  match decision s with
  | NoAction =>
      fst (commit s) = Returns tt
      /\ calls s (snd (commit s)) = []
      /\ set_cookie (snd (commit s)) = set_cookie s
  | Removal => commit s = remove s
  | SaveFor reason =>
      commit s =
      perform (SaveFor reason)
        (if (reason =? "renew")%string then with_ticks (S (ticks s)) s else s)
  end
  /\ (forall x : Session.t,
        session s = Loaded x ->
        fst (_shouldSaveSession s) = Returns (reason_of (decision s)))
  /\ (forall P k : value,
        own_fields P = [] ->
        truthy (prevHash s) = false ->
        let s1 := snd (create P k s) in
        decision s1 = NoAction
        /\ fst (commit s1) = Returns tt
        /\ calls s1 (snd (commit s1)) = []
        /\ set_cookie (snd (commit s1)) = set_cookie s1).
Proof.
  split; [| split].
  - pose proof (commit_by_table s) as H.
    destruct (decision s); auto.
    destruct H as (H1 & H2 & H3); auto using calls_same.
  - intros x Hs.
    destruct (shouldSave_by_table s x Hs) as (s' & E & _).
    rewrite E; reflexivity.
  - intros P k HP Hph s1.
    destruct (create_frame P k s) as (_ & Hsess & Hprev & _).
    destruct (new_of_empty P HP) as (Hjson & Hreq).
    assert (D : decision s1 = NoAction).
    { unfold decision, decision_table; subst s1.
      rewrite Hsess, Hprev, Hjson, Hreq, Hph; reflexivity. }
    pose proof (commit_by_table s1) as H; rewrite D in H.
    destruct H as (H1 & H2 & H3); auto using calls_same.
Qed.

Lemma commit_follows_decision_table_witness :
  (let s := snd (create (VObj []) VUndefined Sample.first_request) in
   fst (commit s) = Returns tt /\ calls s (snd (commit s)) = [])
  /\ (let t := with_session (Loaded Sample.ann_with_cart)
                 (snd (initFromExternal
                         (Sample.keyed_request (VNum (Int 100000)) VUndefined))) in
      commit t = perform (SaveFor "changed") t).
Proof.
  cbv zeta; split.
  - destruct (commit_follows_decision_table Sample.first_request) as (_ & _ & H).
    destruct (H (VObj []) VUndefined eq_refl eq_refl) as (_ & F & C & _).
    split; [exact F | exact C].
  - destruct (commit_follows_decision_table
                (with_session (Loaded Sample.ann_with_cart)
                   (snd (initFromExternal
                           (Sample.keyed_request (VNum (Int 100000)) VUndefined)))))
      as (H & _).
    exact H.
Defined.

(** ** [save] *)

Lemma lookup_obj_set_same (k : string) (v : value) (o : obj) :
  lookup k (obj_set k v o) = v.
Proof.
  induction o as [| [k' v'] o IH]; simpl.
  - rewrite String.eqb_refl; reflexivity.
  - destruct (k =? k')%string eqn:E; simpl.
    + rewrite String.eqb_refl; reflexivity.
    + rewrite E; exact IH.
Qed.

Lemma lookup_obj_set_other (k k' : string) (v : value) (o : obj) :
  (k =? k')%string = false -> lookup k (obj_set k' v o) = lookup k o.
Proof.
  intros N; induction o as [| [k'' v''] o IH]; simpl.
  - rewrite N; reflexivity.
  - destruct (k' =? k'')%string eqn:E; simpl.
    + apply String.eqb_eq in E; subst k''. rewrite N; reflexivity.
    + destruct (k =? k'')%string; auto.
Qed.

(** The calls of [save], its outcome and what it leaves in the options
    object, on every path: the sentinel or a stamp, store mode (with the
    store missing, rejecting or resolving) or cookie mode. *)
Lemma save_runs (changed : bool) (s : State) (x : Session.t) :
  session s = Loaded x ->
  let eff := effective_maxAge (opts s) in
  let sentinel := strict_eq eff (VStr "session") in
  let json :=
    if sentinel then Session.toJSON x
    else stamped eff (Runtime.Date_now (rt s) (ticks s)) (Session.toJSON x) in
  let o' := if sentinel then Opts.set_maxAge VUndefined (opts s) else opts s in
  let third :=
    if (typeof eff =? "number")%string then js_add eff (VNum (Int 10000)) else eff in
  let k := externalKey s in
  let s' := snd (save changed s) in
  opts s' = o'
  /\ session s' = session s
  /\ externalKey s' = k
  /\ if truthy k
     then
       match store s with
       | None => log s' = log s /\ set_cookie s' = set_cookie s
       | Some st =>
           match Store.set st k json third changed (Opts.rolling o') with
           | Returns _ =>
               fst (save changed s) = Returns tt
               /\ log s' =
                  (log s ++ [StoreSet k json third changed (Opts.rolling o');
                             CookiesSet (Opts.key (opts s)) k o'])%list
               /\ set_cookie s' =
                  Ctx.cookies_set (ctx s) (Opts.key (opts s)) k o' (set_cookie s)
           | Throws e =>
               fst (save changed s) = Throws e
               /\ log s' =
                  (log s ++ [StoreSet k json third changed (Opts.rolling o')])%list
               /\ set_cookie s' = set_cookie s
           end
       end
     else
       fst (save changed s) = Returns tt
       /\ log s' =
          (log s ++ [Encode json;
                     CookiesSet (Opts.key (opts s)) (Opts.encode o' json) o'])%list
       /\ set_cookie s' =
          Ctx.cookies_set (ctx s) (Opts.key (opts s)) (Opts.encode o' json) o'
            (set_cookie s).
Proof.
  intros Hs; cbv zeta.
  unfold save, effective_maxAge, stamped; step; rewrite Hs.
  set (eff := if truthy (Opts.maxAge (opts s)) then Opts.maxAge (opts s)
              else VNum (Int 86400000)).
  change (VNum (Int ONE_DAY)) with (VNum (Int 86400000)); fold eff.
  destruct (strict_eq eff (VStr "session")); step;
    (destruct (truthy (externalKey s)); step;
     [ destruct (store s) as [st |] eqn:Hst; step;
       [ match goal with
         | |- context [Store.set ?a ?b ?c ?d ?e ?f] =>
             destruct (Store.set a b c d e f)
         end |]
     |]);
    step; repeat split; try reflexivity; try assumption;
    try (rewrite <- ?app_assoc; reflexivity).
Qed.

Lemma strict_eq_str (v : value) (k : string) :
  strict_eq v (VStr k) = true <-> v = VStr k.
Proof.
  destruct v as [| | b | [| z] | t | o]; simpl;
    try (split; [discriminate | discriminate]).
  rewrite String.eqb_eq; split; congruence.
Qed.

(** The sentinel is truthy and is not the default, so the effective max-age
    is the sentinel exactly when the configured one is. *)
Lemma effective_sentinel (o : Opts.t) :
  strict_eq (effective_maxAge o) (VStr "session")
  = strict_eq (Opts.maxAge o) (VStr "session").
Proof.
  unfold effective_maxAge.
  destruct (Opts.maxAge o) as [| | b | [| z] | t | f]; simpl; auto.
  - destruct b; reflexivity.
  - destruct (z =? 0); reflexivity.
  - destruct (t =? "")%string eqn:E; simpl; auto.
    apply String.eqb_eq in E; subst t; reflexivity.
Qed.

(** C7: in [save] the effective max-age is the configured value, or one day
    (24*60*60*1000 ms) where none is configured.  The payload that [save]
    hands on for persistence, in its first call, is the serialized session
    as it is when the max-age is the sentinel ['session'] (neither [_expire]
    nor [_maxAge] is stamped), and otherwise the serialized session stamped
    with [_expire = maxAge + now] and [_maxAge = maxAge]. *)
Theorem save_stamps_expiry (changed : bool) (s : State) (x : Session.t) :
  session s = Loaded x ->
  (truthy (externalKey s) = true -> store s <> None) ->
  let configured := Opts.maxAge (opts s) in
  let maxAge :=
    if truthy configured then configured else VNum (Int (24 * 60 * 60 * 1000)) in
  let now := Runtime.Date_now (rt s) (ticks s) in
  exists (e : Event) (rest : list Event) (json : obj),
    calls s (snd (save changed s)) = e :: rest
    /\ payload_of e = Some json
    /\ if strict_eq maxAge (VStr "session")
       then json = Session.toJSON x
       else
         json = obj_set "_maxAge" maxAge
                  (obj_set "_expire" (js_add maxAge (VNum (Int now)))
                     (Session.toJSON x))
         /\ lookup "_expire" json = js_add maxAge (VNum (Int now))
         /\ lookup "_maxAge" json = maxAge
         /\ forall m : Z,
              maxAge = VNum (Int m) -> lookup "_expire" json = VNum (Int (m + now)).
Proof.
  intros Hs Hk; cbv zeta.
  change (24 * 60 * 60 * 1000) with 86400000.
  fold (effective_maxAge (opts s)).
  pose proof (save_runs changed s x Hs) as H; cbv zeta in H.
  destruct H as (_ & _ & _ & H).
  set (eff := effective_maxAge (opts s)) in *.
  set (json := if strict_eq eff (VStr "session") then Session.toJSON x
               else stamped eff (Runtime.Date_now (rt s) (ticks s)) (Session.toJSON x)) in *.
  assert (J : if strict_eq eff (VStr "session")
              then json = Session.toJSON x
              else
                json = obj_set "_maxAge" eff
                         (obj_set "_expire"
                            (js_add eff (VNum (Int (Runtime.Date_now (rt s) (ticks s)))))
                            (Session.toJSON x))
                /\ lookup "_expire" json
                   = js_add eff (VNum (Int (Runtime.Date_now (rt s) (ticks s))))
                /\ lookup "_maxAge" json = eff
                /\ forall m : Z,
                     eff = VNum (Int m) ->
                     lookup "_expire" json
                     = VNum (Int (m + Runtime.Date_now (rt s) (ticks s)))).
  { subst json; destruct (strict_eq eff (VStr "session")); [reflexivity |].
    unfold stamped.
    assert (L : lookup "_expire"
                  (obj_set "_maxAge" eff
                     (obj_set "_expire"
                        (js_add eff (VNum (Int (Runtime.Date_now (rt s) (ticks s)))))
                        (Session.toJSON x)))
                = js_add eff (VNum (Int (Runtime.Date_now (rt s) (ticks s))))).
    { rewrite lookup_obj_set_other by reflexivity. apply lookup_obj_set_same. }
    repeat split; auto using lookup_obj_set_same.
    intros m Hm; rewrite L, Hm; reflexivity. }
  destruct (truthy (externalKey s)) eqn:K.
  - destruct (store s) as [st |] eqn:Hst; [| exfalso; apply Hk; auto].
    destruct (Store.set st _ _ _ _ _); destruct H as (_ & C & _);
      rewrite (calls_app _ _ _ C); eexists _, _, json; repeat split; auto.
  - destruct H as (_ & C & _); rewrite (calls_app _ _ _ C);
      eexists _, _, json; repeat split; auto.
Qed.

Lemma save_stamps_expiry_witness :
  let s := snd (initFromExternal
                  (Sample.keyed_request (VNum (Int 100000)) VUndefined)) in
  exists (e : Event) (rest : list Event) (json : obj),
    calls s (snd (save true s)) = e :: rest
    /\ payload_of e = Some json
    /\ lookup "_expire" json = VNum (Int 1700000100001)
    /\ lookup "_maxAge" json = VNum (Int 100000).
Proof.
  cbv zeta.
  destruct (save_stamps_expiry true
              (snd (initFromExternal
                      (Sample.keyed_request (VNum (Int 100000)) VUndefined)))
              (Session.new Sample.record_of_ann) eq_refl
              (fun _ (H : Some Sample.memory_store = None) =>
                 eq_ind (Some Sample.memory_store)
                   (fun o => match o with Some _ => True | None => False end)
                   I None H))
    as (e & rest & json & C & P & _ & _ & M & E).
  exists e, rest, json.
  split; [exact C | split; [exact P | split; [| exact M]]].
  exact (E 100000 eq_refl).
Defined.

(** C9, as amended: in store mode (an external key exists and a store is
    configured) every [save] first passes the payload to [store.set] with the
    options [{changed, rolling}] and a third argument that is the effective
    max-age plus exactly 10000 ms when the effective max-age is a number, and
    the effective max-age itself (the sentinel ['session']) when it is not;
    once that call resolves, [save] writes the unchanged external key, not
    the payload, as the value of the transport cookie, with the configured
    options. *)
Theorem save_store_mode (changed : bool) (s : State) (x : Session.t) (st : Store.t) :
  session s = Loaded x ->
  truthy (externalKey s) = true ->
  store s = Some st ->
  let maxAge := effective_maxAge (opts s) in
  let s' := snd (save changed s) in
  exists (json : obj) (third : value) (rest : list Event),
    calls s s' = StoreSet (externalKey s) json third changed (Opts.rolling (opts s')) :: rest
    /\ (forall m : Z, maxAge = VNum (Int m) -> third = VNum (Int (m + 10000)))
    /\ (typeof maxAge <> "number" -> third = maxAge)
    /\ (maxAge = VStr "session" -> third = VStr "session")
    /\ (Store.set st (externalKey s) json third changed (Opts.rolling (opts s')) = Returns tt ->
        fst (save changed s) = Returns tt
        /\ rest = [CookiesSet (Opts.key (opts s)) (externalKey s) (opts s')]
        /\ externalKey s' = externalKey s
        /\ set_cookie s' =
           Ctx.cookies_set (ctx s) (Opts.key (opts s)) (externalKey s) (opts s')
             (set_cookie s)).
Proof.
  intros Hs K Hst; cbv zeta.
  pose proof (save_runs changed s x Hs) as H; cbv zeta in H.
  rewrite K, Hst in H.
  destruct H as (Ho & _ & Hk & H).
  rewrite Ho.
  set (eff := effective_maxAge (opts s)) in *.
  match type of H with
  | match Store.set _ _ ?j ?t _ _ with _ => _ end =>
      exists j, t;
      assert (T1 : forall m : Z, eff = VNum (Int m) -> t = VNum (Int (m + 10000)))
        by (intros m ->; reflexivity);
      assert (T2 : typeof eff <> "number" -> t = eff)
        by (intros N; destruct (typeof eff =? "number")%string eqn:E;
            [apply String.eqb_eq in E; contradiction | reflexivity]);
      assert (T3 : eff = VStr "session" -> t = VStr "session")
        by (intros ->; reflexivity)
  end.
  destruct (Store.set st _ _ _ _ _) as [[] | e] eqn:R; destruct H as (F & C & S);
    rewrite (calls_app _ _ _ C); eexists; (split; [reflexivity |]);
    (split; [exact T1 |]); (split; [exact T2 |]); (split; [exact T3 |]).
  - intros _; auto.
  - discriminate.
Qed.

Lemma save_store_mode_witness :
  let s := snd (initFromExternal
                  (Sample.keyed_request (VNum (Int 100000)) VUndefined)) in
  exists (json : obj) (rest : list Event),
    calls s (snd (save true s))
    = StoreSet (VStr "k1") json (VNum (Int 110000)) true VUndefined :: rest.
Proof.
  cbv zeta.
  destruct (save_store_mode true
              (snd (initFromExternal
                      (Sample.keyed_request (VNum (Int 100000)) VUndefined)))
              (Session.new Sample.record_of_ann) Sample.memory_store
              eq_refl eq_refl eq_refl)
    as (json & third & rest & C & T & _).
  exists json, rest.
  rewrite (T 100000 eq_refl) in C. exact C.
Defined.

(** C9 as the specification states it fails: with the max-age configured
    as the sentinel ['session'], [save] in store mode hands the sentinel
    itself to [store.set]; its third argument is no number plus 10000. *)
Lemma save_hands_sentinel_to_store :
  let s := snd (initFromExternal
                  (Sample.keyed_request (VStr "session") VUndefined)) in
  externalKey s = VStr "k1"
  /\ Opts.maxAge (opts s) = VStr "session"
  /\ (exists (json : obj) (o : Opts.t),
        calls s (snd (save true s))
        = [StoreSet (VStr "k1") json (VStr "session") true VUndefined;
           CookiesSet (VStr "koa:sess") (VStr "k1") o])
  /\ ~ (exists (json : obj) (m : Z) (rolling : value),
          In (StoreSet (VStr "k1") json (VNum (Int (m + 10000))) true rolling)
             (calls s (snd (save true s)))).
Proof.
  cbv zeta.
  assert (C : exists (json : obj) (o : Opts.t),
             calls (snd (initFromExternal
                           (Sample.keyed_request (VStr "session") VUndefined)))
               (snd (save true
                       (snd (initFromExternal
                               (Sample.keyed_request (VStr "session") VUndefined)))))
             = [StoreSet (VStr "k1") json (VStr "session") true VUndefined;
                CookiesSet (VStr "koa:sess") (VStr "k1") o]).
  { eexists _, _. vm_compute. reflexivity. }
  split; [reflexivity | split; [reflexivity | split; [exact C |]]].
  intros (json & m & r & HIn).
  destruct C as (json0 & o0 & C); rewrite C in HIn.
  destruct HIn as [E | [E | []]]; discriminate E.
Qed.

(** C10: when the configured max-age is the sentinel ['session'], [save]
    sets [maxAge] to [undefined] in the options object itself, the one that
    the constructor was given: every later operation of this coordinator,
    and every coordinator constructed later over the same object, finds it
    undefined (and so falls back on the default of one day).  In every other
    case [save] leaves the options object as it was. *)
Theorem save_clears_sentinel_in_shared_options (changed : bool) (s : State) :
  let s' := snd (save changed s) in
  (forall x : Session.t,
      session s = Loaded x ->
      Opts.maxAge (opts s) = VStr "session" ->
      opts s' = Opts.set_maxAge VUndefined (opts s)
      /\ Opts.maxAge (opts s') = VUndefined
      /\ forall (r : Runtime.t) (c : Ctx.t),
           let next := constructor r c (Some (opts s')) in
           Opts.maxAge (opts next) = VUndefined
           /\ effective_maxAge (opts next) = VNum (Int ONE_DAY))
  /\ (Opts.maxAge (opts s) <> VStr "session" -> opts s' = opts s).
Proof.
  cbv zeta; split.
  - intros x Hs Hm.
    pose proof (save_runs changed s x Hs) as H; cbv zeta in H.
    destruct H as (Ho & _).
    assert (E : strict_eq (Opts.maxAge (opts s)) (VStr "session") = true)
      by (rewrite Hm; reflexivity).
    rewrite effective_sentinel, E in Ho.
    rewrite Ho; repeat split.
  - intros Hm.
    destruct (session s) as [| | x] eqn:Hs.
    + unfold save; step; rewrite Hs; reflexivity.
    + unfold save; step; rewrite Hs; reflexivity.
    + pose proof (save_runs changed s x Hs) as H; cbv zeta in H.
      destruct H as (Ho & _).
      rewrite effective_sentinel in Ho.
      destruct (strict_eq (Opts.maxAge (opts s)) (VStr "session")) eqn:E; auto.
      apply strict_eq_str in E; contradiction.
Qed.

Lemma save_clears_sentinel_in_shared_options_witness :
  let s := snd (initFromExternal
                  (Sample.keyed_request (VStr "session") VUndefined)) in
  Opts.maxAge (opts s) = VStr "session"
  /\ Opts.maxAge (opts (snd (save true s))) = VUndefined
  /\ effective_maxAge
       (opts (constructor Sample.runtime Sample.keyed_ctx
                (Some (opts (snd (save true s))))))
     = VNum (Int 86400000).
Proof.
  cbv zeta.
  destruct (save_clears_sentinel_in_shared_options true
              (snd (initFromExternal
                      (Sample.keyed_request (VStr "session") VUndefined))))
    as (H & _).
  destruct (H (Session.new Sample.record_of_ann) eq_refl eq_refl) as (_ & M & N).
  split; [reflexivity | split; [exact M |]].
  exact (proj2 (N Sample.runtime Sample.keyed_ctx)).
Defined.

(** The hook before a save keeps a session in the slot and touches neither
    the key nor the store; it adds no write to the log. *)
Lemma before_save_runs (s : State) (x : Session.t) :
  session s = Loaded x ->
  exists (x' : Session.t) (d : list Event),
    fst (before_save s) = Returns tt
    /\ session (snd (before_save s)) = Loaded x'
    /\ externalKey (snd (before_save s)) = externalKey s
    /\ store (snd (before_save s)) = store s
    /\ log (snd (before_save s)) = (log s ++ d)%list
    /\ existsb is_write d = false.
Proof.
  intros Hs; unfold before_save; step; rewrite Hs.
  destruct (Opts.beforeSave (opts s)) as [hook |].
  - exists (hook x), [BeforeSave x]; step; cbn; auto 10.
  - exists x, []; cbn; rewrite app_nil_r; auto 10.
Qed.

(** A save with a session in the slot, and a store wherever there is a key,
    performs a write. *)
Lemma save_writes (changed : bool) (s : State) (x : Session.t) :
  session s = Loaded x ->
  (truthy (externalKey s) = true -> store s <> None) ->
  exists d : list Event,
    log (snd (save changed s)) = (log s ++ d)%list /\ existsb is_write d = true.
Proof.
  intros Hs Hk.
  pose proof (save_runs changed s x Hs) as H; cbv zeta in H.
  destruct H as (_ & _ & _ & H).
  destruct (truthy (externalKey s)).
  - destruct (store s) as [st |]; [| exfalso; apply Hk; auto].
    destruct (Store.set st _ _ _ _ _); destruct H as (_ & C & _);
      rewrite C; eexists; split; reflexivity.
  - destruct H as (_ & C & _); rewrite C; eexists; split; reflexivity.
Qed.

Lemma existsb_is_write_app (d1 d2 : list Event) :
  existsb is_write d2 = true -> existsb is_write (d1 ++ d2) = true.
Proof. intros H; rewrite existsb_app, H; apply orb_true_r. Qed.

(** The save that [commit] performs for a reason writes. *)
Lemma perform_save_writes (reason : string) (s t : State) (x : Session.t) :
  session t = Loaded x ->
  log t = log s ->
  (truthy (externalKey t) = true -> store t <> None) ->
  existsb is_write (calls s (snd (perform (SaveFor reason) t))) = true.
Proof.
  intros Hs Hl Hk.
  destruct (before_save_runs t x Hs) as (x' & d & F & S' & K' & St' & L' & W').
  unfold perform, bind.
  destruct (before_save t) as [[[] | e] t'] eqn:B; cbn [fst snd] in *;
    [| discriminate F].
  assert (Hk' : truthy (externalKey t') = true -> store t' <> None)
    by (rewrite K', St'; exact Hk).
  destruct (save_writes (reason =? "changed")%string t' x' S' Hk') as (d' & L'' & W'').
  rewrite (calls_app s _ (d ++ d')).
  - apply existsb_is_write_app; exact W''.
  - rewrite L'', L', Hl, app_assoc; reflexivity.
Qed.

(** C8: with renew configured and no earlier row of the table matching,
    [commit] chooses the reason [renew], and performs a persistence write,
    if and only if the session has a truthy [_expire] and a truthy [maxAge]
    and what remains until the expiry (expire minus now) is strictly less
    than half the max-age; otherwise it does nothing.  For numbers: the
    write happens iff [2 * (expire - now) < maxAge], and a session with
    more than [maxAge / 2] left triggers no write. *)
Theorem renew_when_less_than_half_remains (s : State) (x : Session.t) :
  session s = Loaded x ->
  truthy (Session._requireSave x) = false ->
  negb (truthy (prevHash s)) && (length (keys (Session.toJSON x)) =? 0)%nat = false ->
  strict_eq (prevHash s) (VNum (Int (Runtime.hash (rt s) (Session.toJSON x)))) = true ->
  truthy (Opts.rolling (opts s)) = false ->
  truthy (Opts.renew (opts s)) = true ->
  (truthy (externalKey s) = true -> store s <> None) ->
  let now := Runtime.Date_now (rt s) (ticks s) in
  let n := ToNumber (Runtime.StringToNumber (rt s)) in
  let due :=
    truthy (Session._expire x) && truthy (Session.maxAge x)
    && num_lt_half (num_sub (n (Session._expire x)) (Int now)) (n (Session.maxAge x)) in
  (fst (_shouldSaveSession s) = Returns "renew" <-> due = true)
  /\ (due = true ->
      commit s = perform (SaveFor "renew") (with_ticks (S (ticks s)) s)
      /\ existsb is_write (calls s (snd (commit s))) = true)
  /\ (due = false ->
      fst (_shouldSaveSession s) = Returns ""
      /\ fst (commit s) = Returns tt
      /\ calls s (snd (commit s)) = [])
  /\ (forall e m : Z,
        Session._expire x = VNum (Int e) ->
        Session.maxAge x = VNum (Int m) ->
        (due = true <-> e <> 0 /\ m <> 0 /\ 2 * (e - now) < m)
        /\ (2 * (e - now) > m -> calls s (snd (commit s)) = [])).
Proof.
  intros Hs Hreq Hnew Hsame Hroll Hrenew Hk; cbv zeta.
  set (due := truthy (Session._expire x) && truthy (Session.maxAge x)
              && num_lt_half _ _).
  assert (D : decision s = if due then SaveFor "renew" else NoAction).
  { unfold decision, decision_table, renew_due.
    rewrite Hs, Hreq, Hnew, Hsame, Hroll, Hrenew; cbn [negb andb].
    subst due; rewrite <- !andb_assoc; reflexivity. }
  destruct (shouldSave_by_table s x Hs) as (s' & E & _).
  pose proof (commit_by_table s) as C.
  rewrite D in E, C.
  assert (Due : due = true ->
                commit s = perform (SaveFor "renew") (with_ticks (S (ticks s)) s)
                /\ existsb is_write (calls s (snd (commit s))) = true).
  { intros T; rewrite T in C; cbn [String.eqb Ascii.eqb Bool.eqb] in C.
    split; [exact C |].
    rewrite C; apply (perform_save_writes "renew" s _ x); auto. }
  assert (Not : due = false ->
                fst (_shouldSaveSession s) = Returns ""
                /\ fst (commit s) = Returns tt /\ calls s (snd (commit s)) = []).
  { intros F; rewrite F in C, E; destruct C as (C1 & C2 & _).
    rewrite E; auto using calls_same. }
  split; [| split; [exact Due | split; [exact Not |]]].
  - rewrite E; cbn [fst]. destruct due; cbn [reason_of]; split; auto; discriminate.
  - intros e m He Hm.
    assert (N : due = true <-> e <> 0 /\ m <> 0 /\ 2 * (e - Runtime.Date_now (rt s) (ticks s)) < m).
    { subst due; rewrite He, Hm; cbn.
      rewrite !andb_true_iff, !negb_true_iff, !Z.eqb_neq, Z.ltb_lt. tauto. }
    split; [exact N |].
    intros G; destruct due eqn:T; [| apply Not; reflexivity].
    destruct N as [N _]; specialize (N eq_refl); lia.
Qed.

Lemma renew_when_less_than_half_remains_witness :
  let s := snd (initFromExternal
                  (Sample.keyed_request (VNum (Int 100000)) (VBool true))) in
  fst (_shouldSaveSession s) = Returns "renew"
  /\ existsb is_write (calls s (snd (commit s))) = true.
Proof.
  cbv zeta.
  destruct (renew_when_less_than_half_remains
              (snd (initFromExternal
                      (Sample.keyed_request (VNum (Int 100000)) (VBool true))))
              (Session.new Sample.record_of_ann)
              eq_refl eq_refl eq_refl eq_refl eq_refl eq_refl
              (fun _ (H : Some Sample.memory_store = None) =>
                 eq_ind (Some Sample.memory_store)
                   (fun o => match o with Some _ => True | None => False end)
                   I None H))
    as (A & B & _).
  split; [apply A; reflexivity | apply B; reflexivity].
Defined.

(** C6: after the session was set to [null], the commit performs the
    removal: one [store.destroy(externalKey)] call exactly when an external
    key exists, then one cookie write that clears the transport cookie (the
    empty value, the configured options) in either mode; no [store.set] and
    no [encode] call.  (The store is there and its promise resolves
    wherever a key exists.) *)
Theorem commit_removes_cleared_session (s : State) :
  (truthy (externalKey s) = true ->
   exists st : Store.t,
     store s = Some st /\ Store.destroy st (externalKey s) = Returns tt) ->
  let s1 := snd (set VNull s) in
  let s2 := snd (commit s1) in
  let clear := CookiesSet (Opts.key (opts s)) (VStr "") (opts s) in
  fst (set VNull s) = Returns tt
  /\ session s1 = Cleared
  /\ fst (commit s1) = Returns tt
  /\ calls s1 s2 =
     ((if truthy (externalKey s) then [StoreDestroy (externalKey s)] else [])
      ++ [clear])%list
  /\ length (filter is_destroy (calls s1 s2))
     = (if truthy (externalKey s) then 1 else 0)%nat
  /\ filter is_write (calls s1 s2) = [clear]
  /\ (forall e : Event, In e (calls s1 s2) -> payload_of e = None)
  /\ set_cookie s2 =
     Ctx.cookies_set (ctx s) (Opts.key (opts s)) (VStr "") (opts s) (set_cookie s).
Proof.
  intros Hk; cbv zeta.
  unfold set; cbn [strict_eq]; step.
  assert (C : calls (with_session Cleared s) (snd (commit (with_session Cleared s)))
              = ((if truthy (externalKey s) then [StoreDestroy (externalKey s)] else [])
                 ++ [CookiesSet (Opts.key (opts s)) (VStr "") (opts s)])%list
              /\ fst (commit (with_session Cleared s)) = Returns tt
              /\ set_cookie (snd (commit (with_session Cleared s)))
                 = Ctx.cookies_set (ctx s) (Opts.key (opts s)) (VStr "") (opts s)
                     (set_cookie s)).
  { unfold commit, remove; step.
    destruct (truthy (externalKey s)).
    - destruct (Hk eq_refl) as (st & Hst & Hd).
      step; rewrite Hst; step; rewrite Hd; step.
      split; [| split; reflexivity].
      apply calls_app; step; rewrite <- app_assoc; reflexivity.
    - step. split; [| split; reflexivity].
      apply calls_app; reflexivity. }
  destruct C as (C & F & H).
  rewrite C, F, H.
  repeat split.
  - destruct (truthy (externalKey s)); reflexivity.
  - destruct (truthy (externalKey s)); reflexivity.
  - intros e HIn.
    destruct (truthy (externalKey s)); cbn in HIn;
      intuition (subst; reflexivity).
Qed.

Lemma commit_removes_cleared_session_witness :
  let s := snd (initFromExternal
                  (Sample.keyed_request (VNum (Int 100000)) VUndefined)) in
  let s1 := snd (set VNull s) in
  exists o : Opts.t,
    calls s1 (snd (commit s1))
    = [StoreDestroy (VStr "k1"); CookiesSet (VStr "koa:sess") (VStr "") o].
Proof.
  cbv zeta.
  destruct (commit_removes_cleared_session
              (snd (initFromExternal
                      (Sample.keyed_request (VNum (Int 100000)) VUndefined)))
              (fun _ => ex_intro _ Sample.memory_store (conj eq_refl eq_refl)))
    as (_ & _ & _ & C & _).
  eexists; exact C.
Defined.

(** ** Validity and initialization *)

Lemma drain_after_emit (s s' : State) (name : string) (data : Notification) :
  emitted s' = emitted s ->
  immediates s' = (immediates s ++ [(name, data)])%list ->
  emitted (drain s')
  = (emitted (drain s) ++ [(("session:" ++ name)%string, data)])%list.
Proof.
  intros He Hq; unfold drain; step.
  rewrite He, Hq, map_app, app_assoc; reflexivity.
Qed.

(** C3: [valid(payload, key)] answers [false] and schedules exactly one
    notification, deciding in this order: [missed] for a falsy payload,
    [expired] for a payload whose [_expire] is set and earlier than now,
    [invalid] for a payload that the configured validator rejects; the
    notification is the event [session:<name>] with the data
    [{key, value, ctx}].  Otherwise it answers [true] and schedules none.
    The notification is only queued: [valid] always returns, emits nothing
    on the application itself, changes no field of the coordinator and
    calls nothing but the validator; the event reaches the application when
    the event loop runs the queue. *)
Theorem valid_notifies_asynchronously (s : State) (v key : value) :
  let s' := snd (valid v key s) in
  let data := mkNotification key v (ctx s) in
  let now := Runtime.Date_now (rt s) (ticks s) in
  match rejection s v with
  | Some name =>
      fst (valid v key s) = Returns false
      /\ immediates s' = (immediates s ++ [(name, data)])%list
      /\ emitted (drain s')
         = (emitted (drain s) ++ [(("session:" ++ name)%string, data)])%list
  | None =>
      fst (valid v key s) = Returns true
      /\ immediates s' = immediates s
  end
  /\ emitted s' = emitted s
  /\ (session s', externalKey s', prevHash s', opts s', store s', set_cookie s')
     = (session s, externalKey s, prevHash s, opts s, store s, set_cookie s)
  /\ (forall e : Event, In e (calls s s') -> e = ValidCall v)
  /\ (truthy v = false -> rejection s v = Some "missed")
  /\ (forall e : Z,
        truthy v = true -> prop v "_expire" = VNum (Int e) -> e <> 0 -> e < now ->
        rejection s v = Some "expired")
  /\ (forall f : value -> value,
        truthy v = true -> rejection s v <> Some "expired" ->
        Opts.valid (opts s) = Some f -> truthy (f v) = false ->
        rejection s v = Some "invalid").
Proof.
  cbv zeta.
  assert (R1 : truthy v = false -> rejection s v = Some "missed").
  { intros T; unfold rejection; rewrite T; reflexivity. }
  assert (R2 : forall e : Z,
             truthy v = true -> prop v "_expire" = VNum (Int e) -> e <> 0 ->
             e < Runtime.Date_now (rt s) (ticks s) ->
             rejection s v = Some "expired").
  { intros e T He Hz Hlt; unfold rejection, js_lt; rewrite T, He; cbn.
    apply Z.eqb_neq in Hz; apply Z.ltb_lt in Hlt; rewrite Hz, Hlt; reflexivity. }
  assert (R3 : forall f : value -> value,
             truthy v = true -> rejection s v <> Some "expired" ->
             Opts.valid (opts s) = Some f -> truthy (f v) = false ->
             rejection s v = Some "invalid").
  { intros f T N Hf Hr; unfold rejection in *; rewrite T, Hf, Hr in *; cbn in *.
    destruct (truthy (prop v "_expire") && js_lt _ _ _); [contradiction N |];
      reflexivity. }
  assert (Main :
    match rejection s v with
    | Some name =>
        fst (valid v key s) = Returns false
        /\ immediates (snd (valid v key s))
           = (immediates s ++ [(name, mkNotification key v (ctx s))])%list
    | None =>
        fst (valid v key s) = Returns true
        /\ immediates (snd (valid v key s)) = immediates s
    end
    /\ emitted (snd (valid v key s)) = emitted s
    /\ (session (snd (valid v key s)), externalKey (snd (valid v key s)),
        prevHash (snd (valid v key s)), opts (snd (valid v key s)),
        store (snd (valid v key s)), set_cookie (snd (valid v key s)))
       = (session s, externalKey s, prevHash s, opts s, store s, set_cookie s)
    /\ (log (snd (valid v key s)) = log s
        \/ log (snd (valid v key s)) = (log s ++ [ValidCall v])%list)).
  { unfold valid, rejection; step.
    destruct (truthy v); step; [| auto 10].
    destruct (truthy (prop v "_expire")); step;
      [destruct (js_lt _ _ _); step; [auto 10 |] |];
      (destruct (Opts.valid (opts s)) as [f |]; step;
       [destruct (truthy (f v)); step |]; auto 10). }
  destruct Main as (M & E & Fr & L).
  split; [| split; [exact E | split; [exact Fr | split; [| auto]]]].
  - destruct (rejection s v) as [name |]; [| exact M].
    destruct M as (M1 & M2); auto using drain_after_emit.
  - intros e HIn; destruct L as [L | L].
    + rewrite (calls_same _ _ L) in HIn; destruct HIn.
    + rewrite (calls_app _ _ _ L) in HIn; destruct HIn as [<- | []]; reflexivity.
Qed.

Lemma valid_notifies_asynchronously_witness :
  let s := Sample.first_request in
  let data := mkNotification (VStr "k1") Sample.stale_record (ctx s) in
  fst (valid Sample.stale_record (VStr "k1") s) = Returns false
  /\ immediates (snd (valid Sample.stale_record (VStr "k1") s)) = [("expired", data)]
  /\ emitted (snd (valid Sample.stale_record (VStr "k1") s)) = []
  /\ emitted (drain (snd (valid Sample.stale_record (VStr "k1") s)))
     = [("session:expired", data)].
Proof.
  cbv zeta.
  destruct (valid_notifies_asynchronously Sample.first_request
              Sample.stale_record (VStr "k1")) as ((F & Q & D) & E & _).
  split; [exact F | split; [exact Q | split; [exact E | exact D]]].
Defined.

(** C4: in [initFromCookie], when the configured [decode] throws an error
    that is not a [SyntaxError], the transport cookie is cleared (the empty
    value, the configured options), the error is annotated with the
    resulting [set-cookie] response header and raised again; no session is
    created.  When [decode] throws a [SyntaxError], the error is swallowed
    and a brand-new empty session is created, with no cookie write. *)
Theorem initFromCookie_decode_failure (s : State) (err : Error) :
  let o := opts s in
  let cookie := Ctx.cookies_get (ctx s) (Opts.key o) o in
  truthy cookie = true ->
  Opts.decode o cookie = Throws err ->
  let s' := snd (initFromCookie s) in
  if instanceof_SyntaxError err
  then
    fst (initFromCookie s) = Returns tt
    /\ session s' = Loaded (Session.new VUndefined)
    /\ Session.isNew (Session.new VUndefined) = true
    /\ Session.toJSON (Session.new VUndefined) = []
    /\ prevHash s' = prevHash s
    /\ set_cookie s' = set_cookie s
    /\ filter is_write (calls s s') = []
  else
    let h := Ctx.cookies_set (ctx s) (Opts.key o) (VStr "") o (set_cookie s) in
    fst (initFromCookie s) = Throws (mkError (class err) (message err) (Some h))
    /\ calls s s' =
       [CookiesGet (Opts.key o) o; Decode cookie; CookiesSet (Opts.key o) (VStr "") o]
    /\ set_cookie s' = h
    /\ session s' = session s.
Proof.
  cbv zeta; intros Hc Hd.
  unfold initFromCookie; step; rewrite Hc; step; rewrite Hd.
  destruct (instanceof_SyntaxError err); step.
  - set (t := record (Decode _) (record (CookiesGet _ _) s)).
    destruct (create_frame VUndefined VUndefined t) as (F & S' & P & _ & _ & _ & _ & H).
    destruct (create_externalKey VUndefined VUndefined t) as (_ & L).
    split; [exact F | split; [exact S' | split; [reflexivity | split; [reflexivity |]]]].
    split; [exact P | split; [exact H |]].
    rewrite (calls_app s _ ([CookiesGet (Opts.key (opts s)) (opts s);
                             Decode (Ctx.cookies_get (ctx s) (Opts.key (opts s)) (opts s))]
                            ++ match store t with
                               | Some _ => if truthy VUndefined then [] else [Genid]
                               | None => []
                               end)).
    + destruct (store t); reflexivity.
    + rewrite L; subst t; step. rewrite <- !app_assoc; reflexivity.
  - repeat split.
    apply calls_app; step; rewrite <- !app_assoc; reflexivity.
Qed.

Lemma initFromCookie_decode_failure_witness :
  (exists h : list string,
      fst (initFromCookie
             (Sample.cookie_request (VNum (Int 100000))
                (fun _ => Throws Sample.bad_signature)))
      = Throws (mkError PlainError "invalid signature" (Some h))
      /\ h = ["koa:sess="])
  /\ fst (initFromCookie
            (Sample.cookie_request (VNum (Int 100000))
               (fun _ => Throws Sample.bad_json)))
     = Returns tt.
Proof.
  split.
  - destruct (initFromCookie_decode_failure
                (Sample.cookie_request (VNum (Int 100000))
                   (fun _ => Throws Sample.bad_signature))
                Sample.bad_signature eq_refl eq_refl) as (F & _).
    eexists; split; [exact F | reflexivity].
  - destruct (initFromCookie_decode_failure
                (Sample.cookie_request (VNum (Int 100000))
                   (fun _ => Throws Sample.bad_json))
                Sample.bad_json eq_refl eq_refl) as (F & _).
    exact F.
Defined.

(** C5: the session setter.  [null] puts the slot in the cleared state; an
    object discards the session that was there and creates a new one from
    it, keeping the external key if one was established already (and then
    generating none); a value of any other type makes [set] throw at once,
    and nothing changes. *)
Theorem set_null_object_or_throw (s : State) (val : value) :
  match val with
  | VNull => set val s = (Returns tt, with_session Cleared s)
  | VObj _ =>
      set val s = create val (externalKey s) s
      /\ fst (set val s) = Returns tt
      /\ session (snd (set val s)) = Loaded (Session.new val)
      /\ (truthy (externalKey s) = true ->
          externalKey (snd (set val s)) = externalKey s
          /\ calls s (snd (set val s)) = [])
  | _ =>
      set val s =
      (Throws (mkError PlainError
                 "this.session can only be set as null or an object." None), s)
  end.
Proof.
  destruct val as [| | b | [| z] | t | o]; try reflexivity.
  assert (E : set (VObj o) s = create (VObj o) (externalKey s) s) by reflexivity.
  rewrite E.
  destruct (create_frame (VObj o) (externalKey s) s) as (F & S' & _).
  destruct (create_externalKey (VObj o) (externalKey s) s) as (K & L).
  split; [reflexivity | split; [exact F | split; [exact S' |]]].
  intros T; split.
  - rewrite K, T; destruct (store s); reflexivity.
  - apply calls_same. rewrite L, T.
    destruct (store s); apply app_nil_r.
Qed.

Lemma set_null_object_or_throw_witness :
  let s := snd (initFromExternal
                  (Sample.keyed_request (VNum (Int 100000)) VUndefined)) in
  session (snd (set VNull s)) = Cleared
  /\ externalKey (snd (set (VObj [("user", VStr "bob")]) s)) = VStr "k1"
  /\ fst (set (VStr "bob") s)
     = Throws (mkError PlainError
                 "this.session can only be set as null or an object." None).
Proof.
  cbv zeta; split; [| split].
  - rewrite (set_null_object_or_throw
               (snd (initFromExternal
                       (Sample.keyed_request (VNum (Int 100000)) VUndefined)))
               VNull).
    reflexivity.
  - destruct (set_null_object_or_throw
                (snd (initFromExternal
                        (Sample.keyed_request (VNum (Int 100000)) VUndefined)))
                (VObj [("user", VStr "bob")])) as (_ & _ & _ & K).
    destruct (K eq_refl) as (K' & _). exact K'.
  - rewrite (set_null_object_or_throw
               (snd (initFromExternal
                       (Sample.keyed_request (VNum (Int 100000)) VUndefined)))
               (VStr "bob")).
    reflexivity.
Defined.

(** ** Frames of the methods *)

Lemma preserves_ret {A T : Type} (f : State -> T) (a : A) : preserves f (ret a).
Proof. intros s; reflexivity. Qed.

Lemma preserves_throw {A T : Type} (f : State -> T) (e : Error) :
  preserves f (@throw A e).
Proof. intros s; reflexivity. Qed.

Lemma preserves_gets {A T : Type} (f : State -> T) (g : State -> A) :
  preserves f (gets g).
Proof. intros s; reflexivity. Qed.

Lemma preserves_settle {A T : Type} (f : State -> T) (o : Outcome A) :
  preserves f (settle o).
Proof. intros s; reflexivity. Qed.

Lemma preserves_modify {T : Type} (f : State -> T) (g : State -> State) :
  (forall s, f (g s) = f s) -> preserves f (modify g).
Proof. intros H s; apply H. Qed.

Lemma preserves_bind {A B T : Type} (f : State -> T) (m : M A) (k : A -> M B) :
  preserves f m -> (forall a, preserves f (k a)) -> preserves f (bind m k).
Proof.
  intros Hm Hk s; unfold bind.
  specialize (Hm s); destruct (m s) as [[a | e] s']; cbn [snd] in *.
  - rewrite (Hk a s'); exact Hm.
  - exact Hm.
Qed.

(** Walks through the body of a method; the frames of the methods it calls
    are taken from the context. *)
Ltac frame :=
  unfold cookies_get, cookies_set, Date_now, genid, the_store, store_get,
    store_set, store_destroy, the_session, emit;
  repeat first
    [ assumption
    | match goal with
      | H : forall _, preserves _ _ |- _ => apply H
      | H : forall _ _, preserves _ _ |- _ => apply H
      end
    | apply preserves_ret
    | apply preserves_throw
    | apply preserves_gets
    | apply preserves_settle
    | apply preserves_modify; intros ?; reflexivity
    | apply preserves_bind; [| intros ?]
    | match goal with
      | |- preserves _ (if ?b then _ else _) => destruct b
      | |- preserves _ (match ?x with _ => _ end) => destruct x
      end
    | progress cbv zeta ].

Lemma create_keeps_lone_key (val k : value) :
  preserves store_and_lone_key (create val k).
Proof.
  intros s; unfold store_and_lone_key.
  destruct (create_frame val k s) as (_ & _ & _ & _ & _ & _ & St & _).
  destruct (create_externalKey val k s) as (K & _).
  rewrite St, K; destruct (store s); reflexivity.
Qed.

Lemma valid_keeps {T : Type} (f : State -> T) (val k : value) :
  (forall q s, f (with_immediates q s) = f s) ->
  (forall n s, f (with_ticks n s) = f s) ->
  (forall e s, f (record e s) = f s) ->
  preserves f (valid val k).
Proof.
  intros Hq Ht Hr; unfold valid, emit, Date_now.
  repeat first
    [ apply preserves_ret | apply preserves_gets
    | apply preserves_modify; intros ?; first [apply Hq | apply Ht | apply Hr]
    | apply preserves_bind; [| intros ?]
    | match goal with
      | |- preserves _ (if ?b then _ else _) => destruct b
      | |- preserves _ (match ?x with _ => _ end) => destruct x
      end ].
Qed.

Lemma valid_keeps_lone_key (val k : value) :
  preserves store_and_lone_key (valid val k).
Proof. apply valid_keeps; reflexivity. Qed.

Lemma initFromExternal_keeps_lone_key : preserves store_and_lone_key initFromExternal.
Proof.
  pose proof create_keeps_lone_key; pose proof valid_keeps_lone_key.
  unfold initFromExternal; frame.
Qed.

Lemma initFromCookie_keeps_lone_key : preserves store_and_lone_key initFromCookie.
Proof.
  pose proof create_keeps_lone_key; pose proof valid_keeps_lone_key.
  unfold initFromCookie; frame.
Qed.

Lemma get_keeps_lone_key : preserves store_and_lone_key get.
Proof.
  pose proof initFromCookie_keeps_lone_key.
  unfold get; frame.
Qed.

Lemma set_keeps_lone_key (val : value) : preserves store_and_lone_key (set val).
Proof.
  pose proof create_keeps_lone_key.
  unfold set; frame.
Qed.

Lemma shouldSave_keeps {T : Type} (f : State -> T) :
  (forall n s, f (with_ticks n s) = f s) -> preserves f _shouldSaveSession.
Proof.
  intros Ht; unfold _shouldSaveSession, the_session, Date_now.
  repeat first
    [ apply preserves_ret | apply preserves_gets | apply preserves_throw
    | apply preserves_modify; intros ?; apply Ht
    | apply preserves_bind; [| intros ?]
    | match goal with
      | |- preserves _ (if ?b then _ else _) => destruct b
      | |- preserves _ (match ?x with _ => _ end) => destruct x
      end
    | progress cbv zeta ].
Qed.

Lemma remove_keeps_key_baseline_store : preserves key_baseline_store remove.
Proof. unfold remove; frame. Qed.

Lemma save_keeps_key_baseline_store (changed : bool) :
  preserves key_baseline_store (save changed).
Proof. unfold save; frame. Qed.

Lemma commit_keeps : preserves key_baseline_store commit.
Proof.
  pose proof remove_keeps_key_baseline_store.
  pose proof save_keeps_key_baseline_store.
  assert (preserves key_baseline_store _shouldSaveSession)
    by (apply shouldSave_keeps; reflexivity).
  unfold commit; frame.
Qed.

Lemma lone_key_of_key_baseline_store {A : Type} (m : M A) :
  preserves key_baseline_store m -> preserves store_and_lone_key m.
Proof.
  intros H s; specialize (H s).
  unfold key_baseline_store, store_and_lone_key in *.
  injection H as K _ St; rewrite K, St; reflexivity.
Qed.

(** Every call keeps the store, and the external key while there is none. *)
Lemma call_keeps_lone_key (c : Call) (s : State) :
  store_and_lone_key (call c s) = store_and_lone_key s.
Proof.
  destruct c; cbn [call].
  - apply get_keeps_lone_key.
  - apply set_keeps_lone_key.
  - apply initFromExternal_keeps_lone_key.
  - apply initFromCookie_keeps_lone_key.
  - apply valid_keeps_lone_key.
  - reflexivity.
  - apply create_keeps_lone_key.
  - apply lone_key_of_key_baseline_store, commit_keeps.
  - apply shouldSave_keeps; reflexivity.
  - apply lone_key_of_key_baseline_store, remove_keeps_key_baseline_store.
  - apply lone_key_of_key_baseline_store, save_keeps_key_baseline_store.
  - unfold mutate; destruct (session s); reflexivity.
  - unfold run_immediate; destruct (immediates s) as [| [event data] q]; reflexivity.
Qed.

Lemma history_keeps_lone_key (cs : list Call) (s : State) :
  store_and_lone_key (history cs s) = store_and_lone_key s.
Proof.
  revert s; induction cs as [| c cs IH]; intros s; cbn [history fold_left].
  - reflexivity.
  - change (store_and_lone_key (history cs (call c s)) = store_and_lone_key s).
    rewrite IH; apply call_keeps_lone_key.
Qed.

(** X1: an external key exists only where a store is configured.  Whatever
    is done with a coordinator after its construction (method calls, in any
    order and whether they return or throw, mutations of the session,
    immediates), its store stays the one chosen by the constructor, and
    without a store its external key stays undefined; so a truthy key always
    comes with a store. *)
Theorem external_key_only_with_store
    (r : Runtime.t) (c : Ctx.t) (o : option Opts.t) (cs : list Call) :
  let s0 := constructor r c o in
  let s := history cs s0 in
  store s = store s0
  /\ (store s0 = None -> externalKey s = VUndefined)
  /\ (truthy (externalKey s) = true -> store s <> None).
Proof.
  cbv zeta.
  pose proof (history_keeps_lone_key cs (constructor r c o)) as H.
  set (s0 := constructor r c o) in *.
  assert (X : externalKey s0 = VUndefined) by reflexivity.
  clearbody s0.
  unfold store_and_lone_key in H.
  assert (St := f_equal fst H); assert (K := f_equal snd H); cbn [fst snd] in St, K.
  assert (N : store s0 = None -> externalKey (history cs s0) = VUndefined).
  { intros E; rewrite St, E in K. injection K as K; rewrite K; exact X. }
  split; [exact St | split; [exact N |]].
  intros T E; rewrite St in E; rewrite (N E) in T; discriminate T.
Qed.

(** X2: [commit] assigns neither the external key nor the baseline of the
    dirty check nor the store, on any path: after a save the baseline is
    still the hash recorded when the session was loaded, and after a removal
    the key of the destroyed record is still held. *)
Theorem commit_keeps_key_and_baseline (s : State) :
  externalKey (snd (commit s)) = externalKey s
  /\ prevHash (snd (commit s)) = prevHash s
  /\ store (snd (commit s)) = store s
  /\ (session s = Cleared -> session (snd (commit s)) = Cleared).
Proof.
  pose proof (commit_keeps s) as H; unfold key_baseline_store in H.
  injection H as K P St.
  split; [exact K | split; [exact P | split; [exact St |]]].
  intros Hs.
  assert (R : preserves session remove) by (unfold remove; frame).
  unfold commit, bind, gets; rewrite Hs.
  rewrite (R s); exact Hs.
Qed.

(** ** Loading a session *)

(** What [valid] does to a state, for the methods that go on after it. *)
Lemma valid_effects (v k : value) (s : State) :
  exists d : list Event,
    fst (valid v k s)
    = Returns (match rejection s v with None => true | Some _ => false end)
    /\ log (snd (valid v k s)) = (log s ++ d)%list
    /\ (forall e : Event, In e d -> e = ValidCall v)
    /\ immediates (snd (valid v k s))
       = (immediates s
          ++ match rejection s v with
             | Some name => [(name, mkNotification k v (ctx s))]
             | None => []
             end)%list
    /\ store (snd (valid v k s)) = store s
    /\ session (snd (valid v k s)) = session s
    /\ externalKey (snd (valid v k s)) = externalKey s
    /\ prevHash (snd (valid v k s)) = prevHash s
    /\ opts (snd (valid v k s)) = opts s
    /\ rt (snd (valid v k s)) = rt s
    /\ genids (snd (valid v k s)) = genids s
    /\ set_cookie (snd (valid v k s)) = set_cookie s.
Proof.
  assert (F : forall T (f : State -> T),
             (forall q t, f (with_immediates q t) = f t) ->
             (forall n t, f (with_ticks n t) = f t) ->
             (forall e t, f (record e t) = f t) ->
             f (snd (valid v k s)) = f s)
    by (intros T f H1 H2 H3; apply valid_keeps; assumption).
  assert (Main : exists d : list Event,
             fst (valid v k s)
             = Returns (match rejection s v with None => true | Some _ => false end)
             /\ log (snd (valid v k s)) = (log s ++ d)%list
             /\ (forall e : Event, In e d -> e = ValidCall v)
             /\ immediates (snd (valid v k s))
                = (immediates s
                   ++ match rejection s v with
                      | Some name => [(name, mkNotification k v (ctx s))]
                      | None => []
                      end)%list).
  { unfold valid, rejection; step.
    destruct (truthy v); step;
      [| exists []; rewrite app_nil_r; repeat split; intros e []].
    destruct (truthy (prop v "_expire")); step;
      [destruct (js_lt _ _ _); step;
       [exists []; rewrite app_nil_r; repeat split; intros e [] |] |];
      (destruct (Opts.valid (opts s)) as [f |]; step;
       [destruct (truthy (f v)); step;
        exists [ValidCall v]; rewrite ?app_nil_r; repeat split;
        intros e [<- | []]; reflexivity
       | exists []; rewrite !app_nil_r; repeat split; intros e []]). }
  destruct Main as (d & M1 & M2 & M3 & M4).
  exists d; repeat split; try assumption; apply F; reflexivity.
Qed.

(** [initFromExternal] on a request that carries an external key, for each
    way the store and the validity check can answer. *)
Lemma initFromExternal_with_key (s : State) (st : Store.t) :
  store s = Some st ->
  let o := opts s in
  let k := Ctx.cookies_get (ctx s) (Opts.key o) o in
  truthy k = true ->
  let s' := snd (initFromExternal s) in
  let asked := [CookiesGet (Opts.key o) o; StoreGet k (Opts.maxAge o) (Opts.rolling o)] in
  match Store.get st k (Opts.maxAge o) (Opts.rolling o) with
  | Throws e =>
      fst (initFromExternal s) = Throws e
      /\ calls s s' = asked
      /\ session s' = session s
      /\ externalKey s' = externalKey s
      /\ prevHash s' = prevHash s
      /\ immediates s' = immediates s
  | Returns json =>
      exists d : list Event,
        fst (initFromExternal s) = Returns tt
        /\ (forall e : Event, In e d -> e = ValidCall json)
        /\ match rejection s json with
           | None =>
               calls s s' = (asked ++ d)%list
               /\ session s' = Loaded (Session.new json)
               /\ externalKey s' = k
               /\ prevHash s'
                  = VNum (Int (Runtime.hash (rt s) (Session.toJSON (Session.new json))))
               /\ immediates s' = immediates s
           | Some name =>
               calls s s' = (asked ++ d ++ [Genid])%list
               /\ session s' = Loaded (Session.new VUndefined)
               /\ externalKey s' = Opts.genid o (genids s)
               /\ prevHash s' = prevHash s
               /\ immediates s'
                  = (immediates s ++ [(name, mkNotification k json (ctx s))])%list
           end
  end.
Proof.
  intros Hst o k Hk; cbv zeta; subst o k.
  unfold initFromExternal; step; rewrite Hk; step; rewrite Hst; step.
  destruct (Store.get st _ _ _) as [json | e]; step.
  2: { repeat split. apply calls_app; step; rewrite <- app_assoc; reflexivity. }
  match goal with
  | |- context [valid json ?key ?t] =>
      destruct (valid_effects json key t)
        as (d & V1 & V2 & V3 & V4 & V5 & V6 & V7 & V8 & V9 & V10 & V11 & V12);
      change (rejection t json) with (rejection s json) in *;
      destruct (valid json key t) as [r t'] eqn:V
  end.
  cbn [fst snd] in *; step.
  exists d; subst r.
  destruct (rejection s json) as [name |]; cbn [negb]; unfold create; step;
    rewrite V5, Hst; step.
  - rewrite V9, V11.
    repeat split; auto.
    apply calls_app; step; rewrite V2; step.
    rewrite <- !app_assoc; reflexivity.
  - rewrite Hk; step. rewrite V10.
    repeat split; auto.
    + apply calls_app; step; rewrite V2; step.
      rewrite <- !app_assoc; reflexivity.
    + rewrite V4; apply app_nil_r.
Qed.

Lemma validator_calls_quiet (d : list Event) (v : value) :
  (forall e : Event, In e d -> e = ValidCall v) ->
  filter is_genid d = [] /\ filter is_write d = [] /\ filter is_destroy d = [].
Proof.
  induction d as [| e d IH]; intros H; [repeat split |].
  rewrite (H e (or_introl eq_refl)); cbn.
  apply IH; intros e' HIn; apply H; right; exact HIn.
Qed.

(** X3: [initFromExternal] hydrates from the store.  When the request
    carries an external key, the store's record for that key resolves and
    [valid] accepts it, the session is made from the record, the key of the
    cookie is kept ([genid] is not called), and the hash of the serialized
    session is recorded as the baseline of the dirty check; nothing is
    written and no notification is queued. *)
Theorem initFromExternal_hydrates (s : State) (st : Store.t) (json : value) :
  store s = Some st ->
  let o := opts s in
  let k := Ctx.cookies_get (ctx s) (Opts.key o) o in
  truthy k = true ->
  Store.get st k (Opts.maxAge o) (Opts.rolling o) = Returns json ->
  rejection s json = None ->
  let s' := snd (initFromExternal s) in
  fst (initFromExternal s) = Returns tt
  /\ session s' = Loaded (Session.new json)
  /\ externalKey s' = k
  /\ prevHash s' = VNum (Int (Runtime.hash (rt s) (Session.toJSON (Session.new json))))
  /\ immediates s' = immediates s
  /\ genid_calls (calls s s') = 0%nat
  /\ filter is_write (calls s s') = []
  /\ exists d : list Event,
       calls s s'
       = ([CookiesGet (Opts.key o) o; StoreGet k (Opts.maxAge o) (Opts.rolling o)]
          ++ d)%list
       /\ forall e : Event, In e d -> e = ValidCall json.
Proof.
  intros Hst o k Hk Hget Hrej; cbv zeta.
  pose proof (initFromExternal_with_key s st Hst Hk) as H; cbv zeta in H.
  subst o k; rewrite Hget in H.
  destruct H as (d & F & D & H); rewrite Hrej in H.
  destruct H as (C & S' & K & P & Q).
  destruct (validator_calls_quiet d json D) as (G & W & _).
  repeat split; auto.
  - rewrite C; unfold genid_calls; cbn [app filter is_genid]; rewrite G; reflexivity.
  - rewrite C; cbn [app filter is_write]; exact W.
  - exists d; split; [exact C | exact D].
Qed.

Lemma initFromExternal_hydrates_witness :
  let s' := snd (initFromExternal (Sample.keyed_request_on Sample.memory_store)) in
  session s' = Loaded (Session.new Sample.record_of_ann)
  /\ externalKey s' = VStr "k1"
  /\ prevHash s' = VNum (Int 4).
Proof.
  cbv zeta.
  destruct (initFromExternal_hydrates
              (Sample.keyed_request_on Sample.memory_store)
              Sample.memory_store Sample.record_of_ann
              eq_refl eq_refl eq_refl eq_refl)
    as (_ & S' & K & P & _).
  split; [exact S' | split; [exact K | exact P]].
Defined.

(** X4: [initFromExternal] drops a stale key.  When the request carries an
    external key and the store's record for it resolves to a payload that
    [valid] rejects (missing, expired or refused by the validator), a
    brand-new session is created under a key freshly taken from [genid],
    called once; one notification with the old key and the payload is
    queued; the baseline is left alone, and the old record is neither
    destroyed nor overwritten. *)
Theorem initFromExternal_discards_stale_key
    (s : State) (st : Store.t) (json : value) (name : string) :
  store s = Some st ->
  let o := opts s in
  let k := Ctx.cookies_get (ctx s) (Opts.key o) o in
  truthy k = true ->
  Store.get st k (Opts.maxAge o) (Opts.rolling o) = Returns json ->
  rejection s json = Some name ->
  let s' := snd (initFromExternal s) in
  fst (initFromExternal s) = Returns tt
  /\ session s' = Loaded (Session.new VUndefined)
  /\ externalKey s' = Opts.genid o (genids s)
  /\ prevHash s' = prevHash s
  /\ immediates s' = (immediates s ++ [(name, mkNotification k json (ctx s))])%list
  /\ genid_calls (calls s s') = 1%nat
  /\ filter is_write (calls s s') = []
  /\ filter is_destroy (calls s s') = [].
Proof.
  intros Hst o k Hk Hget Hrej; cbv zeta.
  pose proof (initFromExternal_with_key s st Hst Hk) as H; cbv zeta in H.
  subst o k; rewrite Hget in H.
  destruct H as (d & F & D & H); rewrite Hrej in H.
  destruct H as (C & S' & K & P & Q).
  destruct (validator_calls_quiet d json D) as (G & W & X).
  repeat split; auto.
  - rewrite C; unfold genid_calls; cbn [app filter is_genid].
    rewrite filter_app, G; reflexivity.
  - rewrite C; cbn [app filter is_write]. rewrite filter_app, W; reflexivity.
  - rewrite C; cbn [app filter is_destroy]. rewrite filter_app, X; reflexivity.
Qed.

Lemma initFromExternal_discards_stale_key_witness :
  let s := Sample.keyed_request_on Sample.stale_store in
  let s' := snd (initFromExternal s) in
  externalKey s' = VStr "id0"
  /\ immediates s'
     = [("expired", mkNotification (VStr "k1") Sample.stale_record (ctx s))].
Proof.
  cbv zeta.
  destruct (initFromExternal_discards_stale_key
              (Sample.keyed_request_on Sample.stale_store)
              Sample.stale_store Sample.stale_record "expired"
              eq_refl eq_refl eq_refl eq_refl)
    as (_ & _ & K & _ & Q & _).
  split; [exact K | exact Q].
Defined.

(** X5: a rejection of [store.get] goes through [initFromExternal]
    unchanged: the method throws the store's error after the cookie read
    and the one store call, and leaves the session slot, the external key,
    the baseline and the queue of notifications as they were. *)
Theorem initFromExternal_propagates_store_failure
    (s : State) (st : Store.t) (e : Error) :
  store s = Some st ->
  let o := opts s in
  let k := Ctx.cookies_get (ctx s) (Opts.key o) o in
  truthy k = true ->
  Store.get st k (Opts.maxAge o) (Opts.rolling o) = Throws e ->
  let s' := snd (initFromExternal s) in
  fst (initFromExternal s) = Throws e
  /\ calls s s' = [CookiesGet (Opts.key o) o; StoreGet k (Opts.maxAge o) (Opts.rolling o)]
  /\ session s' = session s
  /\ externalKey s' = externalKey s
  /\ prevHash s' = prevHash s
  /\ immediates s' = immediates s.
Proof.
  intros Hst o k Hk Hget; cbv zeta.
  pose proof (initFromExternal_with_key s st Hst Hk) as H; cbv zeta in H.
  subst o k; rewrite Hget in H; exact H.
Qed.

Lemma initFromExternal_propagates_store_failure_witness :
  let s := Sample.keyed_request_on Sample.unreachable_store in
  fst (initFromExternal s) = Throws Sample.store_down
  /\ session (snd (initFromExternal s)) = Unset.
Proof.
  cbv zeta.
  destruct (initFromExternal_propagates_store_failure
              (Sample.keyed_request_on Sample.unreachable_store)
              Sample.unreachable_store Sample.store_down
              eq_refl eq_refl eq_refl)
    as (F & _ & S' & _).
  split; [exact F | exact S'].
Defined.

(** [initFromCookie] in cookie mode, where [decode] does not throw: for each
    way the cookie and the validity check can come out. *)
Lemma initFromCookie_cases (s : State) :
  store s = None ->
  let o := opts s in
  let cookie := Ctx.cookies_get (ctx s) (Opts.key o) o in
  let s' := snd (initFromCookie s) in
  if truthy cookie
  then
    forall json : value,
      Opts.decode o cookie = Returns json ->
      exists d : list Event,
        fst (initFromCookie s) = Returns tt
        /\ calls s s' = ([CookiesGet (Opts.key o) o; Decode cookie] ++ d)%list
        /\ (forall e : Event, In e d -> e = ValidCall json)
        /\ set_cookie s' = set_cookie s
        /\ externalKey s' = externalKey s
        /\ match rejection s json with
           | None =>
               session s' = Loaded (Session.new json)
               /\ prevHash s'
                  = VNum (Int (Runtime.hash (rt s) (Session.toJSON (Session.new json))))
               /\ immediates s' = immediates s
           | Some name =>
               session s' = Loaded (Session.new VUndefined)
               /\ prevHash s' = prevHash s
               /\ immediates s'
                  = (immediates s ++ [(name, mkNotification VUndefined json (ctx s))])%list
           end
  else
    fst (initFromCookie s) = Returns tt
    /\ calls s s' = [CookiesGet (Opts.key o) o]
    /\ session s' = Loaded (Session.new VUndefined)
    /\ prevHash s' = prevHash s
    /\ set_cookie s' = set_cookie s
    /\ externalKey s' = externalKey s
    /\ immediates s' = immediates s.
Proof.
  intros Hst; cbv zeta.
  unfold initFromCookie; step.
  destruct (truthy (Ctx.cookies_get (ctx s) (Opts.key (opts s)) (opts s))); step.
  2: { unfold create; step; rewrite Hst; step.
       repeat split. apply calls_app; reflexivity. }
  intros json Hd; rewrite Hd.
  match goal with
  | |- context [valid json ?key ?t] =>
      destruct (valid_effects json key t)
        as (d & V1 & V2 & V3 & V4 & V5 & V6 & V7 & V8 & V9 & V10 & V11 & V12);
      change (rejection t json) with (rejection s json) in *;
      destruct (valid json key t) as [r t'] eqn:V
  end.
  cbn [fst snd] in *; step.
  exists d; subst r.
  destruct (rejection s json) as [name |]; cbn [negb]; unfold create; step;
    rewrite V5, Hst; step.
  - repeat split; auto.
    + apply calls_app; step; rewrite V2; step.
      rewrite <- !app_assoc; reflexivity.
  - rewrite V10.
    repeat split; auto.
    + apply calls_app; step; rewrite V2; step.
      rewrite <- !app_assoc; reflexivity.
    + rewrite V4; apply app_nil_r.
Qed.

(** X6: [initFromCookie] hydrates from the cookie.  In cookie mode, when
    the cookie is there, [decode] returns a payload and [valid] accepts it,
    the session is made from the payload and the hash of its serialized
    form is recorded as the baseline; the cookie is not written, no key is
    generated and no notification is queued. *)
Theorem initFromCookie_hydrates (s : State) (json : value) :
  store s = None ->
  let o := opts s in
  let cookie := Ctx.cookies_get (ctx s) (Opts.key o) o in
  truthy cookie = true ->
  Opts.decode o cookie = Returns json ->
  rejection s json = None ->
  let s' := snd (initFromCookie s) in
  fst (initFromCookie s) = Returns tt
  /\ session s' = Loaded (Session.new json)
  /\ prevHash s' = VNum (Int (Runtime.hash (rt s) (Session.toJSON (Session.new json))))
  /\ set_cookie s' = set_cookie s
  /\ externalKey s' = externalKey s
  /\ immediates s' = immediates s
  /\ genid_calls (calls s s') = 0%nat
  /\ filter is_write (calls s s') = [].
Proof.
  intros Hst o cookie Hc Hd Hrej; cbv zeta.
  pose proof (initFromCookie_cases s Hst) as H; cbv zeta in H.
  subst o cookie; rewrite Hc in H.
  destruct (H json Hd) as (d & F & C & D & Sc & K & R); rewrite Hrej in R.
  destruct R as (S' & P & Q).
  destruct (validator_calls_quiet d json D) as (G & W & _).
  repeat split; auto.
  - rewrite C; unfold genid_calls; cbn [app filter is_genid]; rewrite G; reflexivity.
  - rewrite C; cbn [app filter is_write]; exact W.
Qed.

Lemma initFromCookie_hydrates_witness :
  let s' := snd (initFromCookie
                   (Sample.cookie_request (VNum (Int 100000)) Sample.decode_ok)) in
  session s' = Loaded (Session.new Sample.record_of_ann)
  /\ prevHash s' = VNum (Int 4)
  /\ set_cookie s' = [].
Proof.
  cbv zeta.
  destruct (initFromCookie_hydrates
              (Sample.cookie_request (VNum (Int 100000)) Sample.decode_ok)
              Sample.record_of_ann eq_refl eq_refl eq_refl eq_refl)
    as (_ & S' & P & C & _).
  split; [exact S' | split; [exact P | exact C]].
Defined.

(** X7: [initFromCookie] starts afresh without a usable cookie.  In cookie
    mode, when the request has no session cookie, [decode] is not called
    and a brand-new session is created; when the cookie decodes to a payload
    that [valid] rejects, a brand-new session is created and one
    notification, with an undefined key, is queued.  Either way the method
    returns, the baseline and the key are left alone and nothing is
    written: the rejected cookie is not cleared. *)
Theorem initFromCookie_starts_afresh (s : State) :
  store s = None ->
  let o := opts s in
  let cookie := Ctx.cookies_get (ctx s) (Opts.key o) o in
  let s' := snd (initFromCookie s) in
  (truthy cookie = false ->
   fst (initFromCookie s) = Returns tt
   /\ calls s s' = [CookiesGet (Opts.key o) o]
   /\ session s' = Loaded (Session.new VUndefined)
   /\ prevHash s' = prevHash s
   /\ set_cookie s' = set_cookie s
   /\ immediates s' = immediates s)
  /\ (forall (json : value) (name : string),
        truthy cookie = true ->
        Opts.decode o cookie = Returns json ->
        rejection s json = Some name ->
        fst (initFromCookie s) = Returns tt
        /\ session s' = Loaded (Session.new VUndefined)
        /\ prevHash s' = prevHash s
        /\ set_cookie s' = set_cookie s
        /\ filter is_write (calls s s') = []
        /\ immediates s'
           = (immediates s ++ [(name, mkNotification VUndefined json (ctx s))])%list).
Proof.
  intros Hst; cbv zeta.
  pose proof (initFromCookie_cases s Hst) as H; cbv zeta in H.
  split.
  - intros Hc; rewrite Hc in H.
    destruct H as (F & C & S' & P & Sc & _ & Q); auto 10.
  - intros json name Hc Hd Hrej; rewrite Hc in H.
    destruct (H json Hd) as (d & F & C & D & Sc & K & R); rewrite Hrej in R.
    destruct R as (S' & P & Q).
    destruct (validator_calls_quiet d json D) as (_ & W & _).
    repeat split; auto.
    rewrite C; cbn [app filter is_write]; exact W.
Qed.

Lemma initFromCookie_starts_afresh_witness :
  let s := Sample.bare_cookie_request in
  fst (initFromCookie s) = Returns tt
  /\ session (snd (initFromCookie s)) = Loaded (Session.new VUndefined)
  /\ exists o : Opts.t, calls s (snd (initFromCookie s)) = [CookiesGet (VStr "koa:sess") o].
Proof.
  cbv zeta.
  destruct (initFromCookie_starts_afresh Sample.bare_cookie_request eq_refl)
    as (H & _).
  destruct (H eq_refl) as (F & C & S' & _).
  split; [exact F | split; [exact S' | eexists; exact C]].
Defined.

Lemma create_returns (val k : value) (s : State) :
  exists t : State,
    create val k s = (Returns tt, t) /\ session t = Loaded (Session.new val).
Proof.
  destruct (create_frame val k s) as (F & S' & _).
  exists (snd (create val k s)); split; [| exact S'].
  destruct (create val k s) as [r t]; cbn [fst snd] in *; subst r; reflexivity.
Qed.

(** Where [initFromCookie] returns, the slot holds a session object. *)
Lemma initFromCookie_returns_loaded (s s' : State) (u : unit) :
  initFromCookie s = (Returns u, s') -> exists x : Session.t, session s' = Loaded x.
Proof.
  unfold initFromCookie; step.
  destruct (truthy (Ctx.cookies_get (ctx s) (Opts.key (opts s)) (opts s))); step.
  2: { match goal with
       | |- context [create ?a ?b ?t] =>
           destruct (create_returns a b t) as (t1 & -> & S1)
       end.
       intros E; injection E as _ <-; eauto. }
  destruct (Opts.decode (opts s) _) as [json | err].
  - match goal with
    | |- context [valid json ?key ?t] =>
        destruct (valid_effects json key t) as (d & V1 & _);
        destruct (valid json key t) as [r t'] eqn:V
    end.
    cbn [fst] in V1; subst r.
    destruct (rejection _ json); cbn [negb].
    + match goal with
      | |- context [create ?a ?b ?t] =>
          destruct (create_returns a b t) as (t1 & -> & S1)
      end.
      intros E; injection E as _ <-; eauto.
    + match goal with
      | |- context [create ?a ?b ?t] =>
          destruct (create_returns a b t) as (t1 & -> & S1)
      end.
      step; rewrite S1.
      intros E; injection E as _ <-; step; eauto.
  - destruct (instanceof_SyntaxError err); step.
    + match goal with
      | |- context [create ?a ?b ?t] =>
          destruct (create_returns a b t) as (t1 & -> & S1)
      end.
      intros E; injection E as _ <-; eauto.
    + discriminate.
Qed.

(** X8: [get] initializes at most once.  Where [get] returns, a second
    [get] returns the same answer and does nothing at all: no cookie is
    read again, nothing is decoded, the state stays as the first call left
    it.  Without a store the answer is a session object or [null], never
    [undefined]. *)
Theorem get_is_stable (s s' : State) (g : Got) :
  get s = (Returns g, s') ->
  get s' = (Returns g, s')
  /\ (store s = None -> g <> GotUndefined).
Proof.
  unfold get at 1; step.
  destruct (session s) as [| | x] eqn:Hs.
  - destruct (store s) as [st |] eqn:Hst; step.
    + rewrite Hs; intros E; injection E as <- <-.
      split; [| discriminate].
      unfold get; step; rewrite Hs, Hst; step; rewrite Hs; reflexivity.
    + destruct (initFromCookie s) as [[[] | e] t] eqn:I; [| discriminate].
      destruct (initFromCookie_returns_loaded s t tt I) as (x & Hx).
      rewrite Hx; intros E; injection E as <- <-.
      split; [| discriminate].
      unfold get; step; rewrite Hx; reflexivity.
  - intros E; injection E as <- <-.
    split; [| discriminate].
    unfold get; step; rewrite Hs; reflexivity.
  - intros E; injection E as <- <-.
    split; [| discriminate].
    unfold get; step; rewrite Hs; reflexivity.
Qed.

Lemma get_is_stable_witness :
  let s := Sample.cookie_request (VNum (Int 100000)) Sample.decode_ok in
  get (snd (get s))
  = (Returns (GotSession (Session.new Sample.record_of_ann)), snd (get s)).
Proof.
  cbv zeta.
  exact (proj1 (get_is_stable
                  (Sample.cookie_request (VNum (Int 100000)) Sample.decode_ok)
                  (snd (get (Sample.cookie_request (VNum (Int 100000)) Sample.decode_ok)))
                  (GotSession (Session.new Sample.record_of_ann))
                  eq_refl)).
Defined.

(** ** Committing *)

(** A row that saves only applies to a session in the slot. *)
Lemma saving_needs_session (s : State) (reason : string) :
  decision s = SaveFor reason -> exists x : Session.t, session s = Loaded x.
Proof.
  unfold decision; destruct (session s) as [| | x]; try discriminate; eauto.
Qed.

(** Where the table says to save, [commit] is a [save] on the state that
    the hook, if there is one, leaves. *)
Lemma commit_saves (s : State) (x : Session.t) (reason : string) :
  session s = Loaded x ->
  decision s = SaveFor reason ->
  exists t : State,
    commit s = save (reason =? "changed")%string t
    /\ session t
       = Loaded match Opts.beforeSave (opts s) with
                | Some hook => hook x
                | None => x
                end
    /\ log t
       = (log s ++ match Opts.beforeSave (opts s) with
                   | Some _ => [BeforeSave x]
                   | None => []
                   end)%list
    /\ externalKey t = externalKey s
    /\ store t = store s
    /\ opts t = opts s
    /\ ctx t = ctx s
    /\ set_cookie t = set_cookie s.
Proof.
  intros Hs D.
  pose proof (commit_by_table s) as C; rewrite D in C.
  rewrite C; unfold perform, before_save.
  destruct (reason =? "renew")%string; step; rewrite Hs;
    (destruct (Opts.beforeSave (opts s)) as [hook |]; step;
     eexists; (split; [reflexivity |]); step; rewrite ?app_nil_r; auto 10).
Qed.

(** The calls of [remove]: the store's [destroy] at most, then the cookie. *)
Lemma remove_runs (s : State) :
  let k := externalKey s in
  let clear := CookiesSet (Opts.key (opts s)) (VStr "") (opts s) in
  if truthy k
  then
    match store s with
    | None => calls s (snd (remove s)) = [] /\ set_cookie (snd (remove s)) = set_cookie s
    | Some st =>
        match Store.destroy st k with
        | Returns _ =>
            fst (remove s) = Returns tt
            /\ calls s (snd (remove s)) = [StoreDestroy k; clear]
        | Throws e =>
            fst (remove s) = Throws e
            /\ calls s (snd (remove s)) = [StoreDestroy k]
            /\ set_cookie (snd (remove s)) = set_cookie s
        end
    end
  else fst (remove s) = Returns tt /\ calls s (snd (remove s)) = [clear].
Proof.
  cbv zeta; unfold remove; step.
  destruct (truthy (externalKey s)); step.
  - destruct (store s) as [st |]; step.
    + destruct (Store.destroy st (externalKey s)); step; repeat split;
        apply calls_app; step; rewrite <- ?app_assoc; reflexivity.
    + split; [apply calls_same |]; reflexivity.
  - split; [reflexivity | apply calls_app; reflexivity].
Qed.

(** X9: the dirty check of [commit] is the comparison of two hashes.  For a
    session that is not forced and whose baseline is the number [h0]: when
    the hash of its serialized form is [h0] the reason is never [changed],
    and with neither rolling nor renew configured the commit does nothing;
    when the hash differs from a non-zero [h0] the reason is [changed]. *)
Theorem dirty_check_compares_hashes (s : State) (x : Session.t) (h0 : Z) :
  session s = Loaded x ->
  prevHash s = VNum (Int h0) ->
  truthy (Session._requireSave x) = false ->
  let h := Runtime.hash (rt s) (Session.toJSON x) in
  (h = h0 ->
   decision s <> SaveFor "changed"
   /\ (truthy (Opts.rolling (opts s)) = false ->
       truthy (Opts.renew (opts s)) = false ->
       fst (commit s) = Returns tt
       /\ calls s (snd (commit s)) = []
       /\ set_cookie (snd (commit s)) = set_cookie s))
  /\ (h <> h0 -> h0 <> 0 ->
      decision s = SaveFor "changed"
      /\ fst (_shouldSaveSession s) = Returns "changed"
      /\ commit s = perform (SaveFor "changed") s).
Proof.
  intros Hs Hp Hr; cbv zeta; split.
  - intros E.
    assert (Q : strict_eq (prevHash s)
                  (VNum (Int (Runtime.hash (rt s) (Session.toJSON x)))) = true)
      by (rewrite Hp, E; apply Z.eqb_refl).
    split.
    + unfold decision, decision_table; rewrite Hs, Hr, Q; cbn [negb].
      destruct (negb (truthy (prevHash s)) && _); [discriminate |].
      destruct (truthy (Opts.rolling (opts s))); [discriminate |].
      destruct (renew_due s x); discriminate.
    + intros Hroll Hrenew.
      assert (D : decision s = NoAction).
      { unfold decision, decision_table, renew_due.
        rewrite Hs, Hr, Q, Hroll, Hrenew; cbn [negb andb].
        destruct (negb (truthy (prevHash s)) && _); reflexivity. }
      pose proof (commit_by_table s) as C; rewrite D in C.
      destruct C as (C1 & C2 & C3); auto using calls_same.
  - intros N Z0.
    assert (D : decision s = SaveFor "changed").
    { unfold decision, decision_table; rewrite Hs, Hr, Hp; cbn [truthy strict_eq].
      apply Z.eqb_neq in Z0; rewrite Z0; cbn [negb andb].
      assert ((h0 =? Runtime.hash (rt s) (Session.toJSON x)) = false) as ->
        by (apply Z.eqb_neq; congruence).
      reflexivity. }
    split; [exact D | split].
    + destruct (shouldSave_by_table s x Hs) as (s' & E & _).
      rewrite E, D; reflexivity.
    + pose proof (commit_by_table s) as C; rewrite D in C; exact C.
Qed.

Lemma dirty_check_compares_hashes_witness :
  let s := snd (initFromCookie
                  (Sample.cookie_request (VNum (Int 100000)) Sample.decode_ok)) in
  calls s (snd (commit s)) = []
  /\ decision (with_session (Loaded Sample.ann_with_cart) s) = SaveFor "changed".
Proof.
  cbv zeta; split.
  - destruct (dirty_check_compares_hashes
                (snd (initFromCookie
                        (Sample.cookie_request (VNum (Int 100000)) Sample.decode_ok)))
                (Session.new Sample.record_of_ann) 4 eq_refl eq_refl eq_refl)
      as (H & _).
    destruct (H eq_refl) as (_ & H').
    exact (proj1 (proj2 (H' eq_refl eq_refl))).
  - destruct (dirty_check_compares_hashes
                (with_session (Loaded Sample.ann_with_cart)
                   (snd (initFromCookie
                           (Sample.cookie_request (VNum (Int 100000)) Sample.decode_ok))))
                Sample.ann_with_cart 4 eq_refl eq_refl eq_refl)
      as (_ & H).
    refine (proj1 (H _ _)); discriminate.
Defined.

(** The calls of a commit that saves: the hook, then those of [save]. *)
Lemma commit_save_calls (s : State) (x : Session.t) (reason : string) :
  session s = Loaded x ->
  decision s = SaveFor reason ->
  exists (t : State) (d : list Event),
    commit s = save (reason =? "changed")%string t
    /\ log (snd (save (reason =? "changed")%string t)) = (log t ++ d)%list
    /\ calls s (snd (commit s))
       = (match Opts.beforeSave (opts s) with
          | Some _ => [BeforeSave x]
          | None => []
          end ++ d)%list
    /\ session t
       = Loaded match Opts.beforeSave (opts s) with
                | Some hook => hook x
                | None => x
                end
    /\ externalKey t = externalKey s
    /\ store t = store s
    /\ opts t = opts s
    /\ ctx t = ctx s
    /\ set_cookie t = set_cookie s.
Proof.
  intros Hs D.
  destruct (commit_saves s x reason Hs D) as (t & C & St & L & K & S' & O & X & Sc).
  pose proof (save_runs (reason =? "changed")%string t _ St) as R; cbv zeta in R.
  destruct R as (_ & _ & _ & R).
  assert (G : exists d, log (snd (save (reason =? "changed")%string t)) = (log t ++ d)%list).
  { destruct (truthy (externalKey t)).
    - destruct (store t) as [st |].
      + destruct (Store.set st _ _ _ _ _); destruct R as (_ & R & _); eauto.
      + destruct R as (R & _); exists []; rewrite app_nil_r; exact R.
    - destruct R as (_ & R & _); eauto. }
  destruct G as (d & G).
  exists t, d; repeat split; auto.
  rewrite C; apply calls_app; rewrite G, L, app_assoc; reflexivity.
Qed.

(** X10: the flag [changed] that the store receives tells whether the
    content changed, and nothing else: in every [store.set] call that a
    commit makes, the flag is true exactly when the commit's reason is
    [changed]; a save that is forced, rolling or a renewal reports
    [changed: false]. *)
Theorem store_is_told_changed_only_for_changed (s : State) :
  Forall (fun e : Event =>
            match e with
            | StoreSet _ _ _ changed _ =>
                changed = true <-> decision s = SaveFor "changed"
            | _ => True
            end)
         (calls s (snd (commit s))).
Proof.
  pose proof (commit_by_table s) as C.
  destruct (decision s) as [| | reason] eqn:D.
  - destruct C as (_ & L & _); rewrite (calls_same _ _ L); constructor.
  - rewrite C; pose proof (remove_runs s) as R; cbv zeta in R.
    destruct (truthy (externalKey s)).
    + destruct (store s) as [st |].
      * destruct (Store.destroy st (externalKey s)).
        -- destruct R as (_ & R); rewrite R; repeat constructor.
        -- destruct R as (_ & R & _); rewrite R; repeat constructor.
      * destruct R as (R & _); rewrite R; constructor.
    + destruct R as (_ & R); rewrite R; repeat constructor.
  - clear C.
    destruct (saving_needs_session s reason D) as (x & Hs).
    destruct (commit_save_calls s x reason Hs D)
      as (t & d & C & L & Cs & St & _).
    assert (F : Forall (fun e : Event =>
                          match e with
                          | StoreSet _ _ _ changed _ =>
                              changed = true <-> SaveFor reason = SaveFor "changed"
                          | _ => True
                          end) d).
    { assert (Q : forall c : bool,
                 c = (reason =? "changed")%string ->
                 c = true <-> SaveFor reason = SaveFor "changed").
      { intros c ->; rewrite String.eqb_eq; split; congruence. }
      pose proof (save_runs (reason =? "changed")%string t _ St) as R; cbv zeta in R.
      destruct R as (_ & _ & _ & R).
      destruct (truthy (externalKey t)).
      - destruct (store t) as [st |].
        + destruct (Store.set st _ _ _ _ _); destruct R as (_ & R & _);
            rewrite R in L; apply app_inv_head in L; subst d;
            repeat constructor; apply Q; reflexivity.
        + destruct R as (R & _); rewrite R in L.
          rewrite <- (app_nil_r (log t)) in L at 1.
          apply app_inv_head in L; subst d; constructor.
      - destruct R as (_ & R & _); rewrite R in L; apply app_inv_head in L; subst d.
        repeat constructor. }
    rewrite Cs; apply Forall_app; split; [| exact F].
    destruct (Opts.beforeSave (opts s)); repeat constructor.
Qed.

Lemma store_is_told_changed_only_for_changed_witness :
  let s := with_session (Loaded Sample.ann_with_cart)
             (snd (initFromExternal (Sample.keyed_request_on Sample.memory_store))) in
  exists (json : obj) (o : Opts.t),
    calls s (snd (commit s))
    = [StoreSet (VStr "k1") json (VNum (Int 110000)) true VUndefined;
       CookiesSet (VStr "koa:sess") (VStr "k1") o]
    /\ (true = true <-> decision s = SaveFor "changed").
Proof.
  cbv zeta.
  pose proof (store_is_told_changed_only_for_changed
                (with_session (Loaded Sample.ann_with_cart)
                   (snd (initFromExternal
                           (Sample.keyed_request_on Sample.memory_store))))) as F.
  assert (C : exists (json : obj) (o : Opts.t),
             calls (with_session (Loaded Sample.ann_with_cart)
                      (snd (initFromExternal
                              (Sample.keyed_request_on Sample.memory_store))))
               (snd (commit
                       (with_session (Loaded Sample.ann_with_cart)
                          (snd (initFromExternal
                                  (Sample.keyed_request_on Sample.memory_store))))))
             = [StoreSet (VStr "k1") json (VNum (Int 110000)) true VUndefined;
                CookiesSet (VStr "koa:sess") (VStr "k1") o]).
  { eexists _, _; vm_compute; reflexivity. }
  destruct C as (json & o & C); rewrite C in F.
  exists json, o; split; [exact C |].
  exact (Forall_inv F).
Defined.

(** X11: with rolling configured every commit of a session saves, but for
    one case.  A session that is forced, or has a baseline, or has a key in
    its serialized form, is written on commit for one of the reasons
    [force], [changed] or [rolling]; a session that is new, empty and not
    forced is not written, rolling or not. *)
Theorem rolling_saves_all_but_new_empty_sessions (s : State) (x : Session.t) :
  session s = Loaded x ->
  truthy (Opts.rolling (opts s)) = true ->
  (truthy (externalKey s) = true -> store s <> None) ->
  let forced := truthy (Session._requireSave x) in
  let new_and_empty :=
    negb (truthy (prevHash s)) && (length (keys (Session.toJSON x)) =? 0)%nat in
  (forced || negb new_and_empty = true ->
   (decision s = SaveFor "force" \/ decision s = SaveFor "changed"
    \/ decision s = SaveFor "rolling")
   /\ existsb is_write (calls s (snd (commit s))) = true)
  /\ (forced = false -> new_and_empty = true ->
      fst (commit s) = Returns tt /\ calls s (snd (commit s)) = []).
Proof.
  intros Hs Hroll Hk; cbv zeta; split.
  - intros H.
    assert (D : decision s = SaveFor "force" \/ decision s = SaveFor "changed"
                \/ decision s = SaveFor "rolling").
    { unfold decision, decision_table; rewrite Hs, Hroll.
      destruct (truthy (Session._requireSave x)); [auto |].
      cbn [orb] in H; apply negb_true_iff in H; rewrite H.
      destruct (negb (strict_eq _ _)); auto. }
    split; [exact D |].
    pose proof (commit_by_table s) as C.
    destruct D as [D | [D | D]]; rewrite D in C;
      cbn [String.eqb Ascii.eqb Bool.eqb] in C; rewrite C;
      apply (perform_save_writes _ s s x); auto.
  - intros F N.
    assert (D : decision s = NoAction)
      by (unfold decision, decision_table; rewrite Hs, F, N; reflexivity).
    pose proof (commit_by_table s) as C; rewrite D in C.
    destruct C as (C1 & C2 & _); auto using calls_same.
Qed.

Lemma rolling_saves_all_but_new_empty_sessions_witness :
  decision Sample.rolling_request = SaveFor "rolling"
  /\ existsb is_write (calls Sample.rolling_request (snd (commit Sample.rolling_request)))
     = true.
Proof.
  assert (K : truthy (externalKey Sample.rolling_request) = true ->
              store Sample.rolling_request <> None)
    by (change (false = true -> store Sample.rolling_request <> None);
        intros H; discriminate H).
  destruct (rolling_saves_all_but_new_empty_sessions Sample.rolling_request
              (Session.new Sample.record_of_ann) eq_refl eq_refl K) as (A & _).
  destruct (A eq_refl) as (_ & W).
  split; [reflexivity | exact W].
Defined.

Lemma lookup_stamped (maxAge : value) (now : Z) (json : obj) (k : string) :
  Session.reserved k = false -> lookup k (stamped maxAge now json) = lookup k json.
Proof.
  unfold Session.reserved, stamped; intros R.
  apply orb_false_iff in R; destruct R as (R1 & R2).
  rewrite !lookup_obj_set_other by assumption; reflexivity.
Qed.

(** X12: the hook [beforeSave] runs exactly when the commit saves, once and
    before anything is persisted, and what is persisted is the session as
    the hook left it: the payload handed on agrees with the serialized
    session after the hook on every key but the two stamps.  The reason
    was decided on the session before the hook.  A commit that does not
    save does not call the hook. *)
Theorem beforeSave_runs_before_the_save
    (s : State) (x : Session.t) (hook : Session.t -> Session.t) :
  session s = Loaded x ->
  Opts.beforeSave (opts s) = Some hook ->
  (truthy (externalKey s) = true -> store s <> None) ->
  match decision s with
  | SaveFor reason =>
      exists (e : Event) (rest : list Event) (json : obj),
        calls s (snd (commit s)) = BeforeSave x :: e :: rest
        /\ payload_of e = Some json
        /\ (forall k : string,
              Session.reserved k = false ->
              lookup k json = lookup k (Session.toJSON (hook x)))
        /\ Forall (fun e' => match e' with BeforeSave _ => False | _ => True end)
             (e :: rest)
  | _ => calls s (snd (commit s)) = []
  end.
Proof.
  intros Hs Hh Hk.
  destruct (decision s) as [| | reason] eqn:D.
  - pose proof (commit_by_table s) as C; rewrite D in C.
    destruct C as (_ & L & _); apply calls_same; exact L.
  - unfold decision, decision_table in D; rewrite Hs in D.
    repeat match type of D with
           | context [if ?b then _ else _] => destruct b
           end; discriminate D.
  - destruct (commit_save_calls s x reason Hs D)
      as (t & d & C & L & Cs & St & K & S' & O & _).
    rewrite Hh in Cs, St.
    pose proof (save_runs (reason =? "changed")%string t _ St) as R; cbv zeta in R.
    destruct R as (_ & _ & _ & R).
    assert (J : forall k : string,
               Session.reserved k = false ->
               lookup k
                 (if strict_eq (effective_maxAge (opts t)) (VStr "session")
                  then Session.toJSON (hook x)
                  else stamped (effective_maxAge (opts t))
                         (Runtime.Date_now (rt t) (ticks t)) (Session.toJSON (hook x)))
               = lookup k (Session.toJSON (hook x))).
    { intros k Rk; destruct (strict_eq _ _); [reflexivity |].
      apply lookup_stamped; exact Rk. }
    rewrite Cs; cbn [app].
    destruct (truthy (externalKey t)) eqn:T.
    + destruct (store t) as [st |] eqn:Hst;
        [| exfalso; rewrite K in T; apply (Hk T); symmetry; exact S'].
      destruct (Store.set st _ _ _ _ _); destruct R as (_ & R & _);
        rewrite R in L; apply app_inv_head in L; subst d;
        eexists _, _, _; (split; [reflexivity |]);
        (split; [reflexivity |]); (split; [exact J |]); repeat constructor.
    + destruct R as (_ & R & _); rewrite R in L; apply app_inv_head in L; subst d.
      eexists _, _, _; (split; [reflexivity |]);
        (split; [reflexivity |]); (split; [exact J |]); repeat constructor.
Qed.

Lemma beforeSave_runs_before_the_save_witness :
  exists (e : Event) (rest : list Event) (json : obj),
    calls Sample.hooked_request (snd (commit Sample.hooked_request))
    = BeforeSave (Session.new Sample.record_of_ann) :: e :: rest
    /\ payload_of e = Some json
    /\ lookup "mark" json = VStr "v2".
Proof.
  assert (K : truthy (externalKey Sample.hooked_request) = true ->
              store Sample.hooked_request <> None)
    by (change (false = true -> store Sample.hooked_request <> None);
        intros H; discriminate H).
  destruct (beforeSave_runs_before_the_save Sample.hooked_request
              (Session.new Sample.record_of_ann) Sample.mark eq_refl eq_refl K)
    as (e & rest & json & C & P & J & _).
  exists e, rest, json.
  split; [exact C | split; [exact P |]].
  rewrite (J "mark" eq_refl); reflexivity.
Defined.

(** X13: in cookie mode [save] goes to the cookie alone.  Without an
    external key [save] calls [encode] on the payload and writes the result
    as the value of the transport cookie, in one write; it calls no method
    of the store, whether one is configured or not, and the flag [changed]
    makes no difference to what it does. *)
Theorem save_in_cookie_mode (changed : bool) (s : State) (x : Session.t) :
  session s = Loaded x ->
  truthy (externalKey s) = false ->
  let s' := snd (save changed s) in
  save changed s = save (negb changed) s
  /\ fst (save changed s) = Returns tt
  /\ exists json : obj,
       calls s s'
       = [Encode json;
          CookiesSet (Opts.key (opts s)) (Opts.encode (opts s) json) (opts s')]
       /\ set_cookie s'
          = Ctx.cookies_set (ctx s) (Opts.key (opts s)) (Opts.encode (opts s) json)
              (opts s') (set_cookie s).
Proof.
  intros Hs T; cbv zeta.
  split.
  - unfold save; step; rewrite Hs, T.
    destruct (strict_eq _ (VStr "session")); reflexivity.
  - pose proof (save_runs changed s x Hs) as R; cbv zeta in R.
    rewrite T in R; destruct R as (O & _ & _ & F & L & Sc).
    split; [exact F |].
    rewrite O.
    assert (E : forall j : obj,
               Opts.encode
                 (if strict_eq (effective_maxAge (opts s)) (VStr "session")
                  then Opts.set_maxAge VUndefined (opts s)
                  else opts s) j
               = Opts.encode (opts s) j)
      by (intros j; destruct (strict_eq _ _); reflexivity).
    eexists; split.
    + rewrite (calls_app _ _ _ L), E; reflexivity.
    + rewrite Sc, E; reflexivity.
Qed.

Lemma save_in_cookie_mode_witness :
  save true Sample.rolling_request = save false Sample.rolling_request
  /\ fst (save true Sample.rolling_request) = Returns tt.
Proof.
  destruct (save_in_cookie_mode true Sample.rolling_request
              (Session.new Sample.record_of_ann) eq_refl eq_refl)
    as (A & B & _).
  split; [exact A | exact B].
Defined.

(** X14: a rejection of [store.set] goes through [commit] unchanged.  When
    the commit has a reason to save, an external key exists and the store
    rejects the write, [commit] throws the store's error; the transport
    cookie is not written and the response header stays as it was. *)
Theorem commit_propagates_store_set_failure
    (s : State) (st : Store.t) (e : Error) (reason : string) :
  decision s = SaveFor reason ->
  truthy (externalKey s) = true ->
  store s = Some st ->
  (forall (k : value) (json : obj) (maxAge : value) (changed : bool) (rolling : value),
      Store.set st k json maxAge changed rolling = Throws e) ->
  fst (commit s) = Throws e
  /\ set_cookie (snd (commit s)) = set_cookie s
  /\ Forall (fun c => match c with CookiesSet _ _ _ => False | _ => True end)
       (calls s (snd (commit s)))
  /\ existsb is_write (calls s (snd (commit s))) = true.
Proof.
  intros D T Hst Hrej.
  destruct (saving_needs_session s reason D) as (x & Hs).
  destruct (commit_save_calls s x reason Hs D)
    as (t & d & C & L & Cs & St & K & S' & O & X & Sc).
  pose proof (save_runs (reason =? "changed")%string t _ St) as R; cbv zeta in R.
  rewrite K, T, S', Hst, Hrej in R.
  destruct R as (_ & _ & _ & F & R & Sc').
  rewrite R in L; apply app_inv_head in L; subst d.
  rewrite Cs, C.
  split; [exact F | split; [rewrite Sc'; exact Sc | split]].
  - destruct (Opts.beforeSave (opts s)); repeat constructor.
  - destruct (Opts.beforeSave (opts s)); reflexivity.
Qed.

Lemma commit_propagates_store_set_failure_witness :
  fst (commit Sample.changed_on_readonly) = Throws Sample.store_down
  /\ set_cookie (snd (commit Sample.changed_on_readonly)) = [].
Proof.
  destruct (commit_propagates_store_set_failure Sample.changed_on_readonly
              Sample.readonly_store Sample.store_down "changed"
              eq_refl eq_refl eq_refl (fun _ _ _ _ _ => eq_refl))
    as (F & Sc & _).
  split; [exact F | exact Sc].
Defined.

(** X15: a rejection of [store.destroy] leaves the cookie in place.  When
    the session was cleared, an external key exists and the store rejects
    the [destroy], [commit] throws the store's error after that one call:
    the transport cookie is not cleared, and the slot stays cleared. *)
Theorem commit_propagates_destroy_failure (s : State) (st : Store.t) (e : Error) :
  session s = Cleared ->
  truthy (externalKey s) = true ->
  store s = Some st ->
  Store.destroy st (externalKey s) = Throws e ->
  fst (commit s) = Throws e
  /\ calls s (snd (commit s)) = [StoreDestroy (externalKey s)]
  /\ set_cookie (snd (commit s)) = set_cookie s
  /\ session (snd (commit s)) = Cleared.
Proof.
  intros Hs T Hst Hd.
  pose proof (commit_by_table s) as C.
  assert (D : decision s = Removal) by (unfold decision; rewrite Hs; reflexivity).
  rewrite D in C; rewrite C.
  pose proof (remove_runs s) as R; cbv zeta in R.
  rewrite T, Hst, Hd in R; destruct R as (F & L & Sc).
  split; [exact F | split; [exact L | split; [exact Sc |]]].
  assert (P : preserves session remove) by (unfold remove; frame).
  rewrite (P s); exact Hs.
Qed.

Lemma commit_propagates_destroy_failure_witness :
  let s := with_session Cleared Sample.changed_on_readonly in
  fst (commit s) = Throws Sample.store_down
  /\ calls s (snd (commit s)) = [StoreDestroy (VStr "k1")].
Proof.
  cbv zeta.
  destruct (commit_propagates_destroy_failure
              (with_session Cleared Sample.changed_on_readonly)
              Sample.readonly_store Sample.store_down
              eq_refl eq_refl eq_refl eq_refl)
    as (F & L & _).
  split; [exact F | exact L].
Defined.

(** ** The baseline of the dirty check *)








